(** * Device rental dashboard ([app.py]): model and properties

    The dashboard is one Python script built on pandas and Streamlit.  Each
    render pass rebuilds a four-row table ([generate_sample_data]), adds the
    ROI column in place ([calculate_roi]) and draws four tabs from it
    ([main]).

    The model follows the script:
    - [int64] columns are integers of [Z] with the wrap-around of the
      machine operation written out, [float64] values are the kernel's
      binary64 floats, [datetime64[ns]] values are nanoseconds since the
      epoch, the unit in which pandas 2 stores a column of [datetime]
      objects;
    - a [DataFrame] holds the ten columns of the literal dictionaries row by
      row, and the two columns the script adds later ([roi],
      [dias_para_vencimiento]) as optional series;
    - frames live in a store of objects, because the script mutates the
      frame bound to [df] in place; the calls to Streamlit append to the
      rendered screen; exceptions keep the effects made before the raise;
    - the values returned by the widgets and the reading of the clock are
      the inputs of a render pass.

    Row labels (the [RangeIndex]) are not modelled: every series the script
    combines comes from the same frame, so alignment is positional.
    Presentation-only keyword arguments of the charts (colours, axis labels,
    [hole], [use_container_width]) are left out of the figures. *)

From Stdlib Require Import ZArith String Ascii List Floats Lia Bool DecimalString
  Sorted.
From stdpp Require Import base option list strings.
Import ListNotations.

#[local] Open Scope string_scope.
#[local] Open Scope list_scope.

(** ** Machine numbers *)

Module Int64.
#[local] Open Scope Z_scope.

Definition min_int : Z := - 2 ^ 63.
Definition max_int : Z := 2 ^ 63 - 1.

Definition in_range (z : Z) : Prop := min_int <= z <= max_int.

(** Two's complement reduction of an exact result. *)
Definition wrap (z : Z) : Z := (z + 2 ^ 63) mod 2 ^ 64 - 2 ^ 63.

Definition add (a b : Z) : Z := wrap (a + b).
Definition sub (a b : Z) : Z := wrap (a - b).

(** Conversion to [float64], round to nearest even (exact below 2^53). *)
Definition to_float (z : Z) : float :=
  SF2Prim (binary_normalize 53 1024 z 0 false).

(** The integer that [to_float z] denotes. *)
Definition float_value (z : Z) : Z :=
  match binary_normalize 53 1024 z 0 false with
  | S754_finite s m e =>
      let v := Z.shiftl (Z.pos m) e in if s then - v else v
  | _ => 0
  end.
End Int64.

(** ** Dates

    [datetime(y, m, d)] as pandas stores it in a [datetime64[ns]] column:
    nanoseconds since 1970-01-01, computed through the proleptic Gregorian
    ordinal as [datetime.date] does. *)

Definition Timestamp := Z.

Module Calendar.
#[local] Open Scope Z_scope.

Definition is_leap (y : Z) : bool :=
  (y mod 4 =? 0) && (negb (y mod 100 =? 0) || (y mod 400 =? 0)).

Definition days_before_year (y : Z) : Z :=
  let p := y - 1 in p * 365 + p / 4 - p / 100 + p / 400.

Definition days_in_month (y m : Z) : Z :=
  if m =? 2 then (if is_leap y then 29 else 28)
  else if (m =? 4) || (m =? 6) || (m =? 9) || (m =? 11) then 30
  else 31.

Definition days_before_month (y m : Z) : Z :=
  fold_right Z.add 0
    (List.map (days_in_month y) (List.map Z.of_nat (seq 1 (Z.to_nat (m - 1))))).

Definition ymd2ord (y m d : Z) : Z :=
  days_before_year y + days_before_month y m + d.

Definition epoch_ordinal : Z := 719163.   (* 1970-01-01 *)
Definition ns_per_day : Z := 86400 * 10 ^ 9.
End Calendar.

Definition datetime (y m d : Z) : Timestamp :=
  ((Calendar.ymd2ord y m d - Calendar.epoch_ordinal) * Calendar.ns_per_day)%Z.

(** ** The data model *)

(** One dictionary of the [devices] literal. *)
Record Device := mkDevice {
  device_id : string;
  tipo : string;
  model : string;
  total_copies : Z;
  costo_mantenimiento : Z;
  ingreso_arrendamiento : Z;
  inicio_arrendamiento : Timestamp;
  final_arrendamiento : Timestamp;
  status : string;
  cliente : string
}.

(** A column: the values by position. *)
Abbreviation Series := list (only parsing).

(** A frame with the columns the script uses.  The base columns are kept
    row by row; [df['c']] for a base column [c] is [c <$> rows df]. *)
Record DataFrame := mkFrame {
  rows : list Device;
  roi : option (Series float);
  dias_para_vencimiento : option (Series Z)
}.

(** [pd.DataFrame(devices)] *)
Definition pd_DataFrame (devices : list Device) : DataFrame :=
  {| rows := devices; roi := None; dias_para_vencimiento := None |}.

Definition devices : list Device :=
  [ {| device_id := "P001"; tipo := "Impresora"; model := "HP LaserJet";
       total_copies := 15000; costo_mantenimiento := 500;
       ingreso_arrendamiento := 2000;
       inicio_arrendamiento := datetime 2024 1 1;
       final_arrendamiento := datetime 2024 12 31;
       status := "Activo"; cliente := "Compañía A" |};
    {| device_id := "P002"; tipo := "Impresora"; model := "Canon ImageRUNNER";
       total_copies := 22000; costo_mantenimiento := 750;
       ingreso_arrendamiento := 2500;
       inicio_arrendamiento := datetime 2024 2 15;
       final_arrendamiento := datetime 2024 11 15;
       status := "Activo"; cliente := "Compañía B" |};
    {| device_id := "C001"; tipo := "Computadora"; model := "Dell Latitude";
       total_copies := 0; costo_mantenimiento := 300;
       ingreso_arrendamiento := 1500;
       inicio_arrendamiento := datetime 2024 3 1;
       final_arrendamiento := datetime 2024 12 31;
       status := "Activo"; cliente := "Compañía C" |};
    {| device_id := "C002"; tipo := "Computadora"; model := "MacBook Pro";
       total_copies := 0; costo_mantenimiento := 450;
       ingreso_arrendamiento := 1800;
       inicio_arrendamiento := datetime 2024 1 15;
       final_arrendamiento := datetime 2024 10 15;
       status := "Mantenimiento"; cliente := "Compañía D" |} ].

(** ** Series operations (pandas, element-wise) *)

(** [a - b] on two [int64] series. *)
Definition series_sub (a b : Series Z) : Series Z := zip_with Int64.sub a b.

(** [a / b] on two [int64] series: true division, both sides converted to
    [float64]; a zero divisor gives [inf], [-inf] or [nan] and no error. *)
Definition series_truediv (a b : Series Z) : Series float :=
  zip_with (λ x y, (Int64.to_float x / Int64.to_float y)%float) a b.

(** [a * k] for a [float64] series and a Python integer. *)
Definition series_mul (a : Series float) (k : Z) : Series float :=
  (λ x, (x * Int64.to_float k)%float) <$> a.

(** [s == v] on a series of strings: exact, case-sensitive comparison. *)
Definition series_eq (s : Series string) (v : string) : Series bool :=
  (λ x, String.eqb x v) <$> s.

(** [s.isin(values)] *)
Definition isin (s : Series string) (values : list string) : Series bool :=
  (λ x, existsb (String.eqb x) values) <$> s.

(** [s <= k] on an integer series. *)
Definition series_le (s : Series Z) (k : Z) : Series bool :=
  (λ x, (x <=? k)%Z) <$> s.

(** [s.sum()] of an [int64] series. *)
Definition series_sum (s : Series Z) : Z := fold_left Int64.add s 0%Z.

(** [s.unique()]: the distinct values in order of first appearance. *)
Fixpoint unique (s : Series string) : list string :=
  match s with
  | [] => []
  | x :: s' => x :: List.filter (λ y, negb (String.eqb y x)) (unique s')
  end.

Definition count_of (x : string) (s : Series string) : Z :=
  Z.of_nat (length (List.filter (String.eqb x) s)).

Fixpoint insert_desc (p : string * Z) (l : list (string * Z)) : list (string * Z) :=
  match l with
  | [] => [p]
  | q :: l' => if (p.2 <? q.2)%Z then q :: insert_desc p l' else p :: l
  end.

(** [s.value_counts()]: one entry per distinct value, by decreasing count;
    values with the same count keep their order of first appearance. *)
Definition value_counts (s : Series string) : list (string * Z) :=
  fold_right insert_desc [] ((λ x, (x, count_of x s)) <$> unique s).

(** Selection of the positions where the mask holds.  Every mask of the
    script is computed from the frame it selects from, so both have the
    same length. *)
Fixpoint boolean_index {A} (mask : Series bool) (l : list A) : list A :=
  match mask, l with
  | b :: mask', x :: l' =>
      if b then x :: boolean_index mask' l' else boolean_index mask' l'
  | _, _ => []
  end.

(** [df[mask]]: a new frame with the selected positions of every column. *)
Definition getitem_mask (df : DataFrame) (mask : Series bool) : DataFrame :=
  {| rows := boolean_index mask (rows df);
     roi := boolean_index mask <$> roi df;
     dias_para_vencimiento := boolean_index mask <$> dias_para_vencimiento df |}.

(** [len(df)] and [df.empty] *)
Definition len (df : DataFrame) : Z := Z.of_nat (length (rows df)).
Definition empty (df : DataFrame) : bool :=
  match rows df with [] => true | _ => false end.

(** ** Exceptions, the object store and the screen *)

Inductive exn :=
| KeyError (key : string)      (* a column that the frame does not have
                                  (Plotly reports it as a ValueError) *)
| OverflowError                (* a timedelta outside [int64] *)
| OutOfBoundsDatetime          (* a [datetime] outside [datetime64[ns]] *)
| Dangling (r : nat).          (* a reference to no object: a render pass
                                  never raises it, see [main_frames] *)

Inductive Column :=
| StrCol (l : list string)
| IntCol (l : list Z)
| FloatCol (l : list float)
| TimeCol (l : list Timestamp).

(** What [st.dataframe] is given: named columns, in order. *)
Definition Table := list (string * Column).

Inductive Figure :=
| pie (names values : Column) (title : string)
| bar (x y color : Column) (title : string).

Inductive PyValue := PyInt (z : Z) | PyStr (s : string).

(** One call to Streamlit, as it appears on the page. *)
Inductive Element :=
| page_config (page_title layout : string)
| title (body : string)
| tabs (labels : list string)
| columns (n : nat)
| header (body : string)
| subheader (body : string)
| metric (label : string) (value : PyValue)
| plotly_chart (fig : Figure)
| dataframe (data : Table)
| multiselect (label : string) (options default : list string)
| selectbox (label : string) (options : list string)
| button (label : string)
| success (body : string)
| warning (body : string)
| info (body : string).

(** An element with the containers it was drawn in, outermost first. *)
Definition Placed := (list string * Element)%type.

Record Session := mkSession {
  frames : list DataFrame;    (* the live frame objects, by reference *)
  screen : list Placed        (* what has been drawn, oldest first *)
}.

Definition fresh_session : Session := {| frames := []; screen := [] |}.

(** A computation: a result or an exception, and the session it leaves.
    Effects made before an exception stay. *)
Definition M (A : Type) : Type := Session → (exn + A) * Session.

#[global] Instance M_ret : MRet M := λ A x s, (inr x, s).
#[global] Instance M_bind : MBind M := λ A B f m s,
  match m s with
  | (inr x, s') => f x s'
  | (inl e, s') => (inl e, s')
  end.

Definition lift {A} (r : exn + A) : M A := λ s, (r, s).

Definition exec {A} (m : M A) (s : Session) : Session := (m s).2.
Definition eval {A} (m : M A) (s : Session) : exn + A := (m s).1.

(** A new object. *)
Definition alloc (f : DataFrame) : M nat := λ s,
  (inr (length (frames s)), {| frames := frames s ++ [f]; screen := screen s |}).

Definition read (r : nat) : M DataFrame := λ s,
  match frames s !! r with
  | Some f => (inr f, s)
  | None => (inl (Dangling r), s)
  end.

Definition write (r : nat) (f : DataFrame) : M unit := λ s,
  (inr tt, {| frames := <[r := f]> (frames s); screen := screen s |}).

Definition draw (e : Element) : M unit := λ s,
  (inr tt, {| frames := frames s; screen := screen s ++ [([], e)] |}).

(** [with c: body]: what [body] draws is placed in container [c]. *)
Definition within {A} (c : string) (body : M A) : M A := λ s,
  let '(r, s') := body {| frames := frames s; screen := [] |} in
  (r, {| frames := frames s';
         screen := screen s ++ ((λ p : Placed, (c :: p.1, p.2)) <$> screen s') |}).

(** ** Formatting *)

(** [str(x)] for the value of a select box, which is [None] when it has no
    option to offer. *)
Definition py_str (x : option string) : string := default "None" x.

(** Thousands separators, on the digits from the least significant one. *)
Fixpoint group3 (ds : list ascii) : list ascii :=
  match ds with
  | a :: b :: c :: ((_ :: _) as rest) => a :: b :: c :: ","%char :: group3 rest
  | _ => ds
  end.

Definition decimal_digits (n : N) : list ascii :=
  list_ascii_of_string (NilZero.string_of_uint (N.to_uint n)).

(** [f"{x:,.2f}"] for an [int64] scalar: the number is converted to
    [float64] and printed with two decimals, which are zeros. *)
Definition format_comma_2f (x : Z) : string :=
  let v := Int64.float_value x in
  (if (v <? 0)%Z then "-" else "")
  ++ string_of_list_ascii (rev (group3 (rev (decimal_digits (Z.abs_N v)))))
  ++ ".00".

(** ** Columns by name *)

(** [df[name]] *)
Definition getitem (df : DataFrame) (name : string) : exn + Column :=
  if String.eqb name "device_id" then inr (StrCol (device_id <$> rows df))
  else if String.eqb name "tipo" then inr (StrCol (tipo <$> rows df))
  else if String.eqb name "model" then inr (StrCol (model <$> rows df))
  else if String.eqb name "total_copies" then inr (IntCol (total_copies <$> rows df))
  else if String.eqb name "costo_mantenimiento"
       then inr (IntCol (costo_mantenimiento <$> rows df))
  else if String.eqb name "ingreso_arrendamiento"
       then inr (IntCol (ingreso_arrendamiento <$> rows df))
  else if String.eqb name "inicio_arrendamiento"
       then inr (TimeCol (inicio_arrendamiento <$> rows df))
  else if String.eqb name "final_arrendamiento"
       then inr (TimeCol (final_arrendamiento <$> rows df))
  else if String.eqb name "status" then inr (StrCol (status <$> rows df))
  else if String.eqb name "cliente" then inr (StrCol (cliente <$> rows df))
  else if String.eqb name "roi"
       then match roi df with
            | Some s => inr (FloatCol s)
            | None => inl (KeyError name)
            end
  else if String.eqb name "dias_para_vencimiento"
       then match dias_para_vencimiento df with
            | Some s => inr (IntCol s)
            | None => inl (KeyError name)
            end
  else inl (KeyError name).

(** [df[[name; ...]]] *)
Fixpoint getitem_list (df : DataFrame) (names : list string) : exn + Table :=
  match names with
  | [] => inr []
  | name :: names' =>
      match getitem df name with
      | inl e => inl e
      | inr c =>
          match getitem_list df names' with
          | inl e => inl e
          | inr t => inr ((name, c) :: t)
          end
      end
  end.

(** [df['roi'] = s] and [df['dias_para_vencimiento'] = s] *)
Definition setitem_roi (df : DataFrame) (s : Series float) : DataFrame :=
  {| rows := rows df; roi := Some s;
     dias_para_vencimiento := dias_para_vencimiento df |}.

Definition setitem_dias (df : DataFrame) (s : Series Z) : DataFrame :=
  {| rows := rows df; roi := roi df; dias_para_vencimiento := Some s |}.

(** ** Time differences *)

(** The cast of a Python [datetime] to the unit of the column it is
    combined with.  A [datetime64[ns]] value is a count of nanoseconds in
    [int64], the least one being the missing-value marker, which spans
    1677-09-21 to 2262-04-11; pandas 2 raises [OutOfBoundsDatetime] for a
    [datetime] outside. *)
Definition pd_Timestamp (current_date : Timestamp) : exn + Timestamp :=
  if (Int64.min_int <? current_date)%Z && (current_date <=? Int64.max_int)%Z
  then inr current_date
  else inl OutOfBoundsDatetime.

(** [t - current_date] for one timestamp.  pandas checks the subtraction
    and raises instead of wrapping.  The least [int64] is its missing-value
    marker; no difference of two dates of this program comes near it, and
    the model raises there as well. *)
Definition timedelta (t current_date : Timestamp) : exn + Z :=
  let d := (t - current_date)%Z in
  if (Int64.min_int <? d)%Z && (d <=? Int64.max_int)%Z then inr d
  else inl OverflowError.

(** A [datetime64[ns]] series minus a timestamp, element by element. *)
Fixpoint series_sub_timestamp (s : Series Timestamp) (t0 : Timestamp)
  : exn + Series Z :=
  match s with
  | [] => inr []
  | t :: s' =>
      match timedelta t t0 with
      | inl e => inl e
      | inr d =>
          match series_sub_timestamp s' t0 with
          | inl e => inl e
          | inr ds => inr (d :: ds)
          end
      end
  end.

(** [s - current_date] for a [datetime64[ns]] series and a [datetime]: the
    [datetime] is cast first, whatever the series holds. *)
Definition series_sub_datetime (s : Series Timestamp) (current_date : Timestamp)
  : exn + Series Z :=
  match pd_Timestamp current_date with
  | inl e => inl e
  | inr t0 => series_sub_timestamp s t0
  end.

(** [.dt.days]: whole days, rounded down. *)
Definition dt_days (s : Series Z) : Series Z :=
  (λ d, (d / Calendar.ns_per_day)%Z) <$> s.

(** ** Grouping *)

Fixpoint insert_key (k : string) (l : list string) : list string :=
  match l with
  | [] => [k]
  | k' :: l' =>
      match String.compare k k' with
      | Gt => k' :: insert_key k l'
      | _ => k :: l
      end
  end.

(** The group keys of [groupby]: distinct, ascending. *)
Definition sorted_keys (s : Series string) : list string :=
  fold_right insert_key [] (unique s).

(** The missing timestamp, the result of [min] and [max] on no value. *)
Definition NaT : Timestamp := Int64.min_int.

Definition series_min (s : Series Timestamp) : Timestamp :=
  match s with
  | [] => NaT
  | t :: s' => fold_left Z.min s' t
  end.

Definition series_max (s : Series Timestamp) : Timestamp :=
  match s with
  | [] => NaT
  | t :: s' => fold_left Z.max s' t
  end.

(** One row of [lease_summary] after [reset_index()]. *)
Record SummaryRow := mkSummaryRow {
  by_tipo : string;
  device_id_count : Z;
  ingreso_arrendamiento_sum : Z;
  inicio_arrendamiento_min : Timestamp;
  final_arrendamiento_max : Timestamp
}.

(** [df.groupby('tipo').agg({...}).reset_index()] *)
Definition lease_summary (df : DataFrame) : list SummaryRow :=
  (λ k,
     let group := List.filter (λ d, String.eqb (tipo d) k) (rows df) in
     {| by_tipo := k;
        device_id_count := Z.of_nat (length group);
        ingreso_arrendamiento_sum := series_sum (ingreso_arrendamiento <$> group);
        inicio_arrendamiento_min := series_min (inicio_arrendamiento <$> group);
        final_arrendamiento_max := series_max (final_arrendamiento <$> group) |})
  <$> sorted_keys (tipo <$> rows df).

Definition summary_table (l : list SummaryRow) : Table :=
  [ ("tipo", StrCol (by_tipo <$> l));
    ("device_id", IntCol (device_id_count <$> l));
    ("ingreso_arrendamiento", IntCol (ingreso_arrendamiento_sum <$> l));
    ("inicio_arrendamiento", TimeCol (inicio_arrendamiento_min <$> l));
    ("final_arrendamiento", TimeCol (final_arrendamiento_max <$> l)) ].

(** ** Widgets

    What the user has done to the three widgets and the button before this
    render pass; [None] is a widget left untouched. *)
Record Widgets := mkWidgets {
  chosen_tipos : option (list string);
  chosen_device : option string;
  chosen_status : option string;
  clicked : bool
}.

(** [st.multiselect(label, options=, default=)]: the selection, or the
    default when untouched.  Streamlit only offers the options, so a
    selection is a list of some of them. *)
Definition st_multiselect (label : string) (options default : list string)
    (chosen : option (list string)) : M (list string) :=
  draw (multiselect label options default);;
  mret (match chosen with Some l => l | None => default end).

(** [st.selectbox(label, options)]: the selected option, the first one when
    untouched, [None] without options. *)
Definition st_selectbox (label : string) (options : list string)
    (chosen : option string) : M (option string) :=
  draw (selectbox label options);;
  mret (match chosen with Some x => Some x | None => head options end).

(** [st.button(label)]: whether the click started this render pass. *)
Definition st_button (label : string) (pressed : bool) : M bool :=
  draw (button label);;
  mret pressed.

(** ** The script *)

Definition generate_sample_data : M nat :=
  alloc (pd_DataFrame devices).

(** The column is added to the object [df] refers to; the same reference is
    returned.  The operations are those of [int64] operands, the type of the
    two columns whenever their values fit it ([int64_columns]). *)
Definition calculate_roi (df : nat) : M nat :=
  f ← read df;
  let ingreso := ingreso_arrendamiento <$> rows f in
  let costo := costo_mantenimiento <$> rows f in
  write df (setitem_roi f
              (series_mul (series_truediv (series_sub ingreso costo) costo) 100));;
  mret df.

(** [with tab1:] Dashboard overview. *)
Definition tab1 (df : nat) : M unit :=
  within "tab1" (
    draw (header "Descripción general del sistema");;
    draw (columns 4);;
    f ← read df;
    within "col1" (draw (metric "Total de dispositivos" (PyInt (len f))));;
    within "col2" (
      draw (metric "Ingreso mensual total"
              (PyStr ("$" ++ format_comma_2f
                        (series_sum (ingreso_arrendamiento <$> rows f))))));;
    within "col3" (
      draw (metric "Costo de mantenimiento total"
              (PyStr ("$" ++ format_comma_2f
                        (series_sum (costo_mantenimiento <$> rows f))))));;
    within "col4" (
      draw (metric "Dispositivos activos"
              (PyInt (len (getitem_mask f (series_eq (status <$> rows f) "Active"))))));;
    draw (subheader "Distribución del estado del dispositivo");;
    let status_counts := value_counts (status <$> rows f) in
    draw (plotly_chart
            (pie (StrCol (fst <$> status_counts)) (IntCol (snd <$> status_counts))
               "Descripción general del estado del dispositivo"))).

(** [with tab2:] ROI and finance. *)
Definition tab2 (df : nat) : M unit :=
  within "tab2" (
    draw (header "Análisis de ROI y Finanzas");;
    draw (subheader "ROI por dispositivo");;
    f ← read df;
    x ← lift (getitem f "device_id");
    y ← lift (getitem f "roi");
    color ← lift (getitem f "tipo");
    draw (plotly_chart (bar x y color "Retorno de la inversión (ROI)"));;
    draw (subheader "Distribución de costos de mantenimiento");;
    values ← lift (getitem f "costo_mantenimiento");
    names ← lift (getitem f "device_id");
    draw (plotly_chart (pie names values "Costos de mantenimiento por dispositivo"))).

(** [filtered_df = df[df['tipo'].isin(device_tipo_filter)]] *)
Definition filtered_df (df : DataFrame) (device_tipo_filter : list string) : DataFrame :=
  getitem_mask df (isin (tipo <$> rows df) device_tipo_filter).

(** [with tab3:] Inventory, with the category filter and the status form. *)
Definition tab3 (ws : Widgets) (df : nat) : M unit :=
  within "tab3" (
    draw (header "Gestión de inventario de dispositivos");;
    f ← read df;
    device_tipo_filter ←
      st_multiselect "Filtrar por tipo de dispositivo"
        (unique (tipo <$> rows f)) (unique (tipo <$> rows f)) (chosen_tipos ws);
    t ← lift (getitem_list (filtered_df f device_tipo_filter)
                ["device_id"; "tipo"; "model"; "status"; "cliente";
                 "ingreso_arrendamiento"; "costo_mantenimiento"]);
    draw (dataframe t);;
    draw (subheader "Actualizar el estado del dispositivo");;
    device_select ←
      st_selectbox "Seleccionar dispositivo" (device_id <$> rows f) (chosen_device ws);
    new_status ←
      st_selectbox "Nuevo Estado" ["Activo"; "Mantenimiento"; "Inactivo"]
        (chosen_status ws);
    pressed ← st_button "Estado de actualización" (clicked ws);
    if pressed : bool
    then draw (success ("Estado de " ++ py_str device_select
                          ++ " actualizado a " ++ py_str new_status))
    else mret tt).

(** [expiring_soon = df[df['dias_para_vencimiento'] <= 60]] *)
Definition expiring_soon (df : DataFrame) : exn + DataFrame :=
  match dias_para_vencimiento df with
  | Some dias => inr (getitem_mask df (series_le dias 60))
  | None => inl (KeyError "dias_para_vencimiento")
  end.

(** [with tab4:] Lease tracking; [current_date] is the clock's reading. *)
Definition tab4 (current_date : Timestamp) (df : nat) : M unit :=
  within "tab4" (
    draw (header "Gestión de arrendamientos");;
    draw (subheader "Próximos vencimientos de arrendamiento");;
    f ← read df;
    delta ← lift (series_sub_datetime (final_arrendamiento <$> rows f) current_date);
    write df (setitem_dias f (dt_days delta));;
    f ← read df;
    soon ← lift (expiring_soon f);
    (if negb (empty soon)
     then
       draw (warning
               "Dispositivos con contratos de arrendamiento que vencen en los próximos 60 días:");;
       t ← lift (getitem_list soon
                   ["device_id"; "tipo"; "cliente"; "inicio_arrendamiento";
                    "final_arrendamiento"; "dias_para_vencimiento"]);
       draw (dataframe t)
     else draw (info "No leases expiring in the next 60 days."));;
    draw (subheader "Resumen del contrato de arrendamiento");;
    f ← read df;
    draw (dataframe (summary_table (lease_summary f)))).

Definition main (ws : Widgets) (now : Timestamp) : M unit :=
  draw (page_config "Device Rental Monitoring Dashboard" "wide");;
  draw (title "Sistema de monitoreo de alquiler de dispositivos");;
  df ← generate_sample_data;
  df ← calculate_roi df;
  draw (tabs ["Resumen del Tablero"; "Análisis de ROI y Finanzas";
              "Gestión de Dispositivos"; "Seguimiento de Alquileres"]);;
  tab1 df;;
  tab2 df;;
  tab3 ws df;;
  tab4 now df.

(** * Vocabulary of the properties *)

(** The formula of the data model,
    [(lease_income - maintenance_cost) / maintenance_cost * 100], with an
    exact difference and the quotient and product in [float64]. *)
Definition roi_percent (lease_income maintenance_cost : Z) : float :=
  (Int64.to_float (lease_income - maintenance_cost)
     / Int64.to_float maintenance_cost * 100)%float.

(** What the three series operations of [calculate_roi] give for one row. *)
Definition roi_of (d : Device) : float :=
  (Int64.to_float (Int64.sub (ingreso_arrendamiento d) (costo_mantenimiento d))
     / Int64.to_float (costo_mantenimiento d) * Int64.to_float 100)%float.

(** The session of a render pass right after [generate_sample_data]. *)
Definition built : Session :=
  {| frames := [pd_DataFrame devices]; screen := [] |}.

(** A frame of one device that is leased out at no maintenance cost. *)
Definition free_of_cost : Session :=
  {| frames :=
       [pd_DataFrame
          [ {| device_id := "P003"; tipo := "Impresora"; model := "HP LaserJet";
               total_copies := 0; costo_mantenimiento := 0;
               ingreso_arrendamiento := 2000;
               inicio_arrendamiento := datetime 2024 1 1;
               final_arrendamiento := datetime 2024 12 31;
               status := "Activo"; cliente := "Compañía A" |} ]];
     screen := [] |}.

(** What the finance tab draws for a frame with the given ROI column. *)
Definition finance_screen (f : DataFrame) (rois : Series float) : list Placed :=
  [ (["tab2"], header "Análisis de ROI y Finanzas");
    (["tab2"], subheader "ROI por dispositivo");
    (["tab2"],
     plotly_chart (bar (StrCol (device_id <$> rows f)) (FloatCol rois)
                     (StrCol (tipo <$> rows f))
                     "Retorno de la inversión (ROI)"));
    (["tab2"], subheader "Distribución de costos de mantenimiento");
    (["tab2"],
     plotly_chart (pie (StrCol (device_id <$> rows f))
                     (IntCol (costo_mantenimiento <$> rows f))
                     "Costos de mantenimiento por dispositivo")) ].

(** The number of records whose status is the literal of the metric. *)
Definition active_count (l : list Device) : Z :=
  Z.of_nat (length (filter (λ d, status d = "Active") l)).

(** What the overview tab draws for a frame. *)
Definition overview_screen (f : DataFrame) : list Placed :=
  [ (["tab1"], header "Descripción general del sistema");
    (["tab1"], columns 4);
    (["tab1"; "col1"], metric "Total de dispositivos" (PyInt (len f)));
    (["tab1"; "col2"],
     metric "Ingreso mensual total"
       (PyStr ("$" ++ format_comma_2f
                 (series_sum (ingreso_arrendamiento <$> rows f)))));
    (["tab1"; "col3"],
     metric "Costo de mantenimiento total"
       (PyStr ("$" ++ format_comma_2f
                 (series_sum (costo_mantenimiento <$> rows f)))));
    (["tab1"; "col4"],
     metric "Dispositivos activos" (PyInt (active_count (rows f))));
    (["tab1"], subheader "Distribución del estado del dispositivo");
    (["tab1"],
     plotly_chart
       (pie (StrCol (fst <$> value_counts (status <$> rows f)))
          (IntCol (snd <$> value_counts (status <$> rows f)))
          "Descripción general del estado del dispositivo")) ].

(** The seven columns of the inventory table, for the given records. *)
Definition inventory_table (l : list Device) : Table :=
  [ ("device_id", StrCol (device_id <$> l));
    ("tipo", StrCol (tipo <$> l));
    ("model", StrCol (model <$> l));
    ("status", StrCol (status <$> l));
    ("cliente", StrCol (cliente <$> l));
    ("ingreso_arrendamiento", IntCol (ingreso_arrendamiento <$> l));
    ("costo_mantenimiento", IntCol (costo_mantenimiento <$> l)) ].

(** What the category filter returns. *)
Definition selection (ws : Widgets) (f : DataFrame) : list string :=
  match chosen_tipos ws with
  | Some l => l
  | None => unique (tipo <$> rows f)
  end.

(** What the two select boxes of the status form return. *)
Definition selected_device (ws : Widgets) (options : list string) : option string :=
  match chosen_device ws with
  | Some x => Some x
  | None => head options
  end.

Definition selected_status (ws : Widgets) : option string :=
  match chosen_status ws with
  | Some x => Some x
  | None => Some "Activo"
  end.

#[local] Arguments filtered_df : simpl never.

(** What the inventory tab draws for a frame and the state of the widgets. *)
Definition inventory_screen (ws : Widgets) (f : DataFrame) : list Placed :=
  [ (["tab3"], header "Gestión de inventario de dispositivos");
    (["tab3"],
     multiselect "Filtrar por tipo de dispositivo"
       (unique (tipo <$> rows f)) (unique (tipo <$> rows f)));
    (["tab3"],
     dataframe
       (inventory_table (filter (λ d, tipo d ∈ selection ws f) (rows f))));
    (["tab3"], subheader "Actualizar el estado del dispositivo");
    (["tab3"], selectbox "Seleccionar dispositivo" (device_id <$> rows f));
    (["tab3"], selectbox "Nuevo Estado" ["Activo"; "Mantenimiento"; "Inactivo"]);
    (["tab3"], button "Estado de actualización") ]
  ++ (if clicked ws
      then [ (["tab3"],
              success ("Estado de "
                         ++ py_str (selected_device ws (device_id <$> rows f))
                         ++ " actualizado a " ++ py_str (selected_status ws))) ]
      else []).

(** [days_to_expiration = lease_end - current_date], in whole days. *)
Definition days_to_expiration (current_date : Timestamp) (d : Device) : Z :=
  ((final_arrendamiento d - current_date) / Calendar.ns_per_day)%Z.

(** A count of nanoseconds that [datetime64[ns]] holds. *)
Definition valid_timestamp (t : Timestamp) : Prop :=
  (Int64.min_int < t ≤ Int64.max_int)%Z.

(** The two date columns of the frame are [datetime64[ns]]: every lease
    start and lease end is a timestamp that the unit holds. *)
Definition datetime64_columns (f : DataFrame) : Prop :=
  Forall (λ d, valid_timestamp (inicio_arrendamiento d)
               ∧ valid_timestamp (final_arrendamiento d)) (rows f).

(** The two money columns of the frame are [int64], the type pandas gives
    a column of Python integers when all of them fit. *)
Definition int64_columns (f : DataFrame) : Prop :=
  Forall Int64.in_range (ingreso_arrendamiento <$> rows f)
  ∧ Forall Int64.in_range (costo_mantenimiento <$> rows f).

(** The lease ends within the range of time differences from the date. *)
Definition representable (current_date : Timestamp) (d : Device) : Prop :=
  (Int64.min_int < final_arrendamiento d - current_date ≤ Int64.max_int)%Z.

(** The six columns of the warning table, for the given records. *)
Definition expiring_table (current_date : Timestamp) (l : list Device) : Table :=
  [ ("device_id", StrCol (device_id <$> l));
    ("tipo", StrCol (tipo <$> l));
    ("cliente", StrCol (cliente <$> l));
    ("inicio_arrendamiento", TimeCol (inicio_arrendamiento <$> l));
    ("final_arrendamiento", TimeCol (final_arrendamiento <$> l));
    ("dias_para_vencimiento", IntCol (days_to_expiration current_date <$> l)) ].

#[local] Arguments expiring_soon : simpl never.

(** What the lease tab draws when every time difference is representable. *)
Definition leases_screen (current_date : Timestamp) (f : DataFrame) : list Placed :=
  [ (["tab4"], header "Gestión de arrendamientos");
    (["tab4"], subheader "Próximos vencimientos de arrendamiento") ]
  ++ match filter (λ d, (days_to_expiration current_date d ≤ 60)%Z) (rows f) with
     | [] => [ (["tab4"], info "No leases expiring in the next 60 days.") ]
     | soon =>
         [ (["tab4"],
            warning
              "Dispositivos con contratos de arrendamiento que vencen en los próximos 60 días:");
           (["tab4"], dataframe (expiring_table current_date soon)) ]
     end
  ++ [ (["tab4"], subheader "Resumen del contrato de arrendamiento");
       (["tab4"], dataframe (summary_table (lease_summary f))) ].

(** The frame bound to [df] when the tabs are drawn. *)
Definition with_roi : DataFrame :=
  setitem_roi (pd_DataFrame devices) (roi_of <$> devices).

(** What is on the screen when the lease tab starts. *)
Definition pass_screen (ws : Widgets) : list Placed :=
  [ ([], page_config "Device Rental Monitoring Dashboard" "wide");
    ([], title "Sistema de monitoreo de alquiler de dispositivos");
    ([], tabs ["Resumen del Tablero"; "Análisis de ROI y Finanzas";
               "Gestión de Dispositivos"; "Seguimiento de Alquileres"]) ]
  ++ overview_screen with_roi
  ++ finance_screen with_roi (roi_of <$> devices)
  ++ inventory_screen ws with_roi.

(** The arithmetic sum. *)
Definition total (l : list Z) : Z := fold_right Z.add 0%Z l.

(** The session of a render pass when the tabs are drawn. *)
Definition prepared : Session := {| frames := [with_roi]; screen := [] |}.

(** A frame of one device whose lease ended in the year 1700. *)
Definition long_expired : Session :=
  {| frames :=
       [pd_DataFrame
          [ {| device_id := "P000"; tipo := "Impresora"; model := "Gutenberg";
               total_copies := 0; costo_mantenimiento := 500;
               ingreso_arrendamiento := 2000;
               inicio_arrendamiento := datetime 1699 1 1;
               final_arrendamiento := datetime 1700 1 1;
               status := "Inactivo"; cliente := "Compañía A" |} ]];
     screen := [] |}.

(** The ROI column, when the frame has one, holds for each record the value
    computed from that record's income and cost. *)
Definition roi_aligned (f : DataFrame) : Prop :=
  ∀ rois, roi f = Some rois → rois = roi_of <$> rows f.

(** The day counts, when the frame has them, are those of its records from
    the given date. *)
Definition dias_aligned (current_date : Timestamp) (f : DataFrame) : Prop :=
  ∀ dias, dias_para_vencimiento f = Some dias →
          dias = days_to_expiration current_date <$> rows f.

(** Larger counts first. *)
Definition by_count_desc (p q : string * Z) : Prop := (q.2 ≤ p.2)%Z.

(** Strictly ascending strings, in the order of [str] comparison. *)
Definition str_lt (a b : string) : Prop := String.compare a b = Lt.

(** Not after, in the order of [str] comparison. *)
Definition str_le (a b : string) : Prop := String.compare a b ≠ Gt.

(** The summary row of one category, from the records of that category. *)
Definition summary_row (f : DataFrame) (k : string) : SummaryRow :=
  let group := filter (λ d, tipo d = k) (rows f) in
  {| by_tipo := k;
     device_id_count := Z.of_nat (length group);
     ingreso_arrendamiento_sum := series_sum (ingreso_arrendamiento <$> group);
     inicio_arrendamiento_min := series_min (inicio_arrendamiento <$> group);
     final_arrendamiento_max := series_max (final_arrendamiento <$> group) |}.



(** What the lease tab has drawn when the subtraction raises. *)
Definition leases_screen_raised : list Placed :=
  [ (["tab4"], header "Gestión de arrendamientos");
    (["tab4"], subheader "Próximos vencimientos de arrendamiento") ].

(** The element is a confirmation. *)
Definition is_success (p : Placed) : bool :=
  match p.2 with success _ => true | _ => false end.

(** The text without its thousands separators. *)
Definition strip_commas (s : string) : string :=
  string_of_list_ascii
    (List.filter (λ c, negb (Ascii.eqb c ","%char)) (list_ascii_of_string s)).

(** [str(x)] for an integer. *)
Definition numeral (x : Z) : string :=
  (if (x <? 0)%Z then "-" else "")
  ++ NilZero.string_of_uint (N.to_uint (Z.abs_N x)).

(** The number of thousands separators in the text. *)
Definition comma_count (s : string) : nat :=
  length (List.filter (λ c, Ascii.eqb c ","%char) (list_ascii_of_string s)).

(** * Properties *)

(** ** Running the store monad *)

Lemma lookup_end (fs : list DataFrame) (f : DataFrame) :
  (fs ++ [f]) !! length fs = Some f.
Proof. by rewrite list_lookup_middle. Qed.

Lemma insert_end (fs : list DataFrame) (f g : DataFrame) :
  <[length fs := g]> (fs ++ [f]) = fs ++ [g].
Proof.
  replace (length fs) with (length fs + 0) by lia.
  by rewrite insert_app_r.
Qed.

(** One step of symbolic execution: the monad and its primitives unfolded. *)
Ltac run :=
  unfold within, st_multiselect, st_selectbox, st_button, draw, read, write,
    alloc, lift, mbind, M_bind, mret, M_ret; cbn.

(** Membership in a screen that is written out. *)
Ltac scan := repeat first [left; reflexivity | right].
Ltac find_in :=
  solve [ scan
        | apply in_or_app; left; scan
        | apply in_or_app; right; scan ].

(** ** Series and masks *)

Lemma zip_with_fmap_same {A B C D} (g : B → C → D) (a : A → B) (b : A → C)
    (l : list A) :
  zip_with g (a <$> l) (b <$> l) = (λ x, g (a x) (b x)) <$> l.
Proof. induction l as [|x l IH]; cbn; [done | by rewrite IH]. Qed.

Lemma boolean_index_fmap {A B} (g : A → B) (mask : Series bool) (l : list A) :
  boolean_index mask (g <$> l) = g <$> boolean_index mask l.
Proof.
  revert l. induction mask as [|b mask IH]; intros [|x l]; cbn; try done.
  destruct b; cbn; by rewrite IH.
Qed.

(** A mask computed row by row selects the rows that pass the test. *)
Lemma boolean_index_filter {A} (p : A → bool) (P : A → Prop)
    `{!∀ x, Decision (P x)} (l : list A) :
  (∀ x, p x = true ↔ P x) →
  boolean_index (p <$> l) l = filter P l.
Proof.
  intros Hp. induction l as [|x l IH]; [done|].
  rewrite fmap_cons. cbn [boolean_index]. rewrite IH. destruct (p x) eqn:E.
  - rewrite filter_cons_True; [done | by apply Hp].
  - rewrite filter_cons_False; [done|]. intros HP. apply Hp in HP. congruence.
Qed.

Lemma existsb_eqb_elem_of (x : string) (l : list string) :
  existsb (String.eqb x) l = true ↔ x ∈ l.
Proof.
  rewrite existsb_exists, list_elem_of_In. split.
  - intros (y & Hy & E). apply String.eqb_eq in E. by subst.
  - intros H. exists x. split; [done | apply String.eqb_refl].
Qed.

(** ** Machine arithmetic *)

Lemma wrap_in_range (z : Z) : Int64.in_range z → Int64.wrap z = z.
Proof.
  unfold Int64.in_range, Int64.wrap, Int64.min_int, Int64.max_int. intros H.
  rewrite Z.mod_small; lia.
Qed.

Lemma wrap_mod (z : Z) : (Int64.wrap z mod 2 ^ 64 = z mod 2 ^ 64)%Z.
Proof.
  unfold Int64.wrap.
  rewrite Zminus_mod, Z.mod_mod by lia.
  rewrite <- Zminus_mod. f_equal. lia.
Qed.

Lemma wrap_add_wrap (a b : Z) : Int64.wrap (Int64.wrap a + b) = Int64.wrap (a + b).
Proof.
  unfold Int64.wrap at 1 3. f_equal.
  rewrite <- Z.add_assoc, Zplus_mod, wrap_mod, <- Zplus_mod. f_equal. lia.
Qed.

(** The [int64] sum is the exact sum reduced once. *)
Lemma series_sum_wrap (l : Series Z) :
  series_sum l = Int64.wrap (fold_right Z.add 0%Z l).
Proof.
  unfold series_sum.
  assert (G : ∀ acc, fold_left Int64.add l (Int64.wrap acc)
                     = Int64.wrap (acc + fold_right Z.add 0%Z l)).
  { induction l as [|x l IH]; intros acc; cbn.
    - by rewrite Z.add_0_r.
    - unfold Int64.add at 2. rewrite wrap_add_wrap, IH. f_equal. lia. }
  specialize (G 0%Z).
  by rewrite wrap_in_range in G
    by (unfold Int64.in_range, Int64.min_int, Int64.max_int; lia).
Qed.

(** ** ROI *)

Lemma roi_series (l : list Device) :
  series_mul
    (series_truediv
       (series_sub (ingreso_arrendamiento <$> l) (costo_mantenimiento <$> l))
       (costo_mantenimiento <$> l)) 100
  = roi_of <$> l.
Proof.
  unfold series_mul, series_truediv, series_sub.
  rewrite zip_with_fmap_same, zip_with_fmap_same, <- list_fmap_compose. done.
Qed.

Lemma calculate_roi_run (s : Session) (df : nat) (f : DataFrame) :
  frames s !! df = Some f →
  calculate_roi df s
  = (inr df, {| frames := <[df := setitem_roi f (roi_of <$> rows f)]> (frames s);
                screen := screen s |}).
Proof.
  intros H. unfold calculate_roi. run. rewrite H. cbn. by rewrite roi_series.
Qed.

Lemma roi_of_formula (d : Device) :
  Int64.in_range (ingreso_arrendamiento d - costo_mantenimiento d) →
  roi_of d = roi_percent (ingreso_arrendamiento d) (costo_mantenimiento d).
Proof.
  intros H. unfold roi_of, roi_percent, Int64.sub. by rewrite wrap_in_range.
Qed.

(** C1. On every frame whose income and cost columns are [int64],
    [calculate_roi] completes, changes nothing but the [roi] column of the
    frame it is given, and that column has one value per record, in the
    order of the records: for a record with a cost above zero and a
    difference that [int64] can hold (any income that is not negative will
    do), the value at the record's position is
    [(income - cost) / cost * 100]. *)
Theorem calculate_roi_formula (s : Session) (df : nat) (f : DataFrame) :
  frames s !! df = Some f →
  int64_columns f →
  ∃ rois : Series float,
    calculate_roi df s
    = (inr df, {| frames := <[df := setitem_roi f rois]> (frames s);
                  screen := screen s |})
    ∧ rows (setitem_roi f rois) = rows f
    ∧ length rois = length (rows f)
    ∧ ∀ (i : nat) (d : Device),
        rows f !! i = Some d →
        (0 < costo_mantenimiento d)%Z →
        (Int64.min_int ≤ ingreso_arrendamiento d - costo_mantenimiento d)%Z →
        rois !! i
        = Some (roi_percent (ingreso_arrendamiento d) (costo_mantenimiento d)).
Proof.
  intros H [Hincome Hcost]. exists (roi_of <$> rows f).
  split; [by apply calculate_roi_run|].
  split; [done|]. split; [by rewrite length_fmap|].
  intros i d Hd Hpos Hlow.
  assert (Hi : Int64.in_range (ingreso_arrendamiento d)).
  { rewrite Forall_fmap, Forall_lookup in Hincome. exact (Hincome i d Hd). }
  assert (Hc : Int64.in_range (costo_mantenimiento d)).
  { rewrite Forall_fmap, Forall_lookup in Hcost. exact (Hcost i d Hd). }
  rewrite list_lookup_fmap, Hd. cbn. f_equal. apply roi_of_formula.
  unfold Int64.in_range in *. lia.
Qed.

Lemma calculate_roi_formula_witness :
  ∃ rois : Series float,
    eval (calculate_roi 0) built = inr 0
    ∧ rois !! 1 = Some (roi_percent 2500 750)
    ∧ (frames (exec (calculate_roi 0) built) !! 0) ≫= roi = Some rois.
Proof.
  destruct (calculate_roi_formula built 0 (pd_DataFrame devices) eq_refl)
    as (rois & Hrun & _ & _ & Hroi).
  { split; repeat constructor; vm_compute; intuition discriminate. }
  exists rois. unfold eval, exec. rewrite Hrun. split; [reflexivity|]. split.
  - apply (Hroi 1
             {| device_id := "P002"; tipo := "Impresora";
                model := "Canon ImageRUNNER"; total_copies := 22000;
                costo_mantenimiento := 750; ingreso_arrendamiento := 2500;
                inicio_arrendamiento := datetime 2024 2 15;
                final_arrendamiento := datetime 2024 11 15;
                status := "Activo"; cliente := "Compañía B" |});
      [reflexivity | | ]; vm_compute; intuition discriminate.
  - reflexivity.
Defined.

(** ** A cost of zero *)

(** C8, as stated, fails: for a record with a cost of zero [calculate_roi]
    raises nothing, stores [infinity] as the record's ROI, and the bar chart
    of the finance tab is drawn with that value. *)
Lemma zero_cost_roi_is_infinity :
  eval (df ← calculate_roi 0; tab2 df) free_of_cost = inr tt
  ∧ (frames (exec (calculate_roi 0) free_of_cost) !! 0) ≫= roi = Some [infinity]
  ∧ In (["tab2"],
        plotly_chart (bar (StrCol ["P003"]) (FloatCol [infinity])
                        (StrCol ["Impresora"]) "Retorno de la inversión (ROI)"))
       (screen (exec (df ← calculate_roi 0; tab2 df) free_of_cost)).
Proof.
  split; [reflexivity|]. split; [reflexivity|].
  vm_compute. find_in.
Qed.

(** A quotient by zero, scaled: never a finite number. *)
Lemma div_zero_mul_class (x : float) :
  let r := (x / Int64.to_float 0 * Int64.to_float 100)%float in
  is_nan r || is_infinity r = true.
Proof.
  intros r.
  assert (Hq : Prim2SF (x / Int64.to_float 0)%float = S754_nan
               ∨ ∃ sg, Prim2SF (x / Int64.to_float 0)%float = S754_infinity sg).
  { rewrite div_spec. change (Prim2SF (Int64.to_float 0)) with (S754_zero false).
    destruct (Prim2SF x); cbn; eauto. }
  assert (Hr : Prim2SF r = S754_nan ∨ ∃ sg, Prim2SF r = S754_infinity sg).
  { unfold r. rewrite mul_spec.
    change (Prim2SF (Int64.to_float 100))
      with (S754_finite false 7036874417766400 (-46)).
    destruct Hq as [-> | [sg ->]]; cbn; eauto. }
  unfold is_nan, is_infinity. rewrite !FloatAxioms.eqb_spec, abs_spec.
  destruct Hr as [-> | [[] ->]]; reflexivity.
Qed.

Lemma tab2_run (s : Session) (df : nat) (f : DataFrame) (rois : Series float) :
  frames s !! df = Some f →
  roi f = Some rois →
  tab2 df s
  = (inr tt, {| frames := frames s; screen := screen s ++ finance_screen f rois |}).
Proof.
  intros H Hroi. unfold tab2. run. rewrite H. cbn.
  unfold getitem. cbn. rewrite Hroi. reflexivity.
Qed.

(** C8, amended.  [calculate_roi] has no policy for a cost of zero: on every
    frame whose income and cost columns are [int64] it completes without an
    exception, and the ROI it stores for a record whose cost is zero is the
    [float64] quotient by zero, that is NaN or an infinity; the finance tab
    then draws the bar chart from the stored column as it is. *)
Theorem calculate_roi_zero_cost (s : Session) (df : nat) (f : DataFrame) :
  frames s !! df = Some f →
  int64_columns f →
  ∃ rois : Series float,
    calculate_roi df s
    = (inr df, {| frames := <[df := setitem_roi f rois]> (frames s);
                  screen := screen s |})
    ∧ (∀ (i : nat) (d : Device),
         rows f !! i = Some d →
         costo_mantenimiento d = 0%Z →
         ∃ r, rois !! i = Some r ∧ is_nan r || is_infinity r = true)
    ∧ eval (tab2 df) (exec (calculate_roi df) s) = inr tt
    ∧ In (["tab2"],
          plotly_chart (bar (StrCol (device_id <$> rows f)) (FloatCol rois)
                          (StrCol (tipo <$> rows f))
                          "Retorno de la inversión (ROI)"))
         (screen (exec (tab2 df) (exec (calculate_roi df) s))).
Proof.
  intros H _. exists (roi_of <$> rows f).
  split; [by apply calculate_roi_run|]. split.
  - intros i d Hd Hc. exists (roi_of d). split.
    + by rewrite list_lookup_fmap, Hd.
    + unfold roi_of. rewrite Hc. apply div_zero_mul_class.
  - unfold exec, eval. rewrite (calculate_roi_run s df f H). cbn [snd].
    erewrite tab2_run;
      [| cbn; apply list_lookup_insert_eq; by eapply lookup_lt_Some
       | reflexivity].
    split; [reflexivity|]. cbn. apply in_or_app. right.
    unfold finance_screen. find_in.
Qed.

Lemma calculate_roi_zero_cost_witness :
  ∃ r : float,
    (frames (exec (calculate_roi 0) free_of_cost) !! 0) ≫= roi = Some [r]
    ∧ is_nan r || is_infinity r = true.
Proof.
  destruct (calculate_roi_zero_cost free_of_cost 0
              (pd_DataFrame
                 [ {| device_id := "P003"; tipo := "Impresora";
                      model := "HP LaserJet"; total_copies := 0;
                      costo_mantenimiento := 0; ingreso_arrendamiento := 2000;
                      inicio_arrendamiento := datetime 2024 1 1;
                      final_arrendamiento := datetime 2024 12 31;
                      status := "Activo"; cliente := "Compañía A" |} ])
              eq_refl)
    as (rois & Hrun & Hzero & _).
  { split; repeat constructor; vm_compute; intuition discriminate. }
  destruct (Hzero 0 _ eq_refl eq_refl) as (r & Hr & Hclass).
  exists r. split; [|exact Hclass].
  unfold exec. rewrite Hrun. cbn.
  destruct rois as [|r0 [|r1 rois]]; cbn in Hr.
  - discriminate.
  - by injection Hr as ->.
  - revert Hrun. unfold calculate_roi. run. intros Hrun. discriminate.
Defined.

(** ** The dataset builder *)

Lemma generate_sample_data_run (s : Session) :
  generate_sample_data s
  = (inr (length (frames s)),
     {| frames := frames s ++ [pd_DataFrame devices]; screen := screen s |}).
Proof. reflexivity. Qed.

(** C7. Whatever the sessions in which [generate_sample_data] is called
    (the second may be the one the first call left, or the one a whole
    render pass left), both calls complete and the frames they return hold
    the same records in the same order; the frame has neither the [roi] nor
    the [dias_para_vencimiento] column, and the call draws nothing and
    leaves the frames that exist as they are. *)
Theorem generate_sample_data_deterministic (s1 s2 : Session) :
  ∃ (r1 r2 : nat) (f : DataFrame),
    eval generate_sample_data s1 = inr r1
    ∧ eval generate_sample_data s2 = inr r2
    ∧ frames (exec generate_sample_data s1) !! r1 = Some f
    ∧ frames (exec generate_sample_data s2) !! r2 = Some f
    ∧ rows f = devices
    ∧ roi f = None
    ∧ dias_para_vencimiento f = None
    ∧ screen (exec generate_sample_data s1) = screen s1
    ∧ take (length (frames s1)) (frames (exec generate_sample_data s1)) = frames s1.
Proof.
  exists (length (frames s1)), (length (frames s2)), (pd_DataFrame devices).
  unfold eval, exec. rewrite !generate_sample_data_run. cbn [fst snd frames screen].
  rewrite !lookup_end, take_app_length. done.
Qed.

(** C10. In the frame that [generate_sample_data] returns, no two records
    have the same [device_id]. *)
Theorem device_ids_unique (s : Session) :
  ∃ (r : nat) (f : DataFrame),
    eval generate_sample_data s = inr r
    ∧ frames (exec generate_sample_data s) !! r = Some f
    ∧ NoDup (device_id <$> rows f).
Proof.
  exists (length (frames s)), (pd_DataFrame devices).
  unfold eval, exec. rewrite generate_sample_data_run. cbn [fst snd frames].
  rewrite lookup_end. split; [done|]. split; [done|].
  cbn. repeat (apply NoDup_cons_2;
               [rewrite list_elem_of_In; cbn; intuition discriminate|]).
  apply NoDup_nil_2.
Qed.

(** ** The lease summary *)

(** C5. On the sample data, with or without the derived columns, the lease
    summary has one row per category; the row of the printers ([Impresora])
    counts 2 devices, sums their income to 4500, and has 2024-01-01 as the
    earliest start and 2024-12-31 as the latest end.  The two printers have
    incomes 2000 and 2500, starts 2024-01-01 and 2024-02-15, and ends
    2024-12-31 and 2024-11-15. *)
Theorem lease_summary_printers
    (rois : option (Series float)) (dias : option (Series Z)) :
  let df := {| rows := devices; roi := rois; dias_para_vencimiento := dias |} in
  filter (λ r, by_tipo r = "Impresora") (lease_summary df)
  = [ {| by_tipo := "Impresora";
         device_id_count := 2;
         ingreso_arrendamiento_sum := 4500;
         inicio_arrendamiento_min := datetime 2024 1 1;
         final_arrendamiento_max := datetime 2024 12 31 |} ]
  ∧ by_tipo <$> lease_summary df = ["Computadora"; "Impresora"]
  ∧ (λ d, (ingreso_arrendamiento d, inicio_arrendamiento d, final_arrendamiento d))
      <$> filter (λ d, tipo d = "Impresora") devices
    = [ (2000%Z, datetime 2024 1 1, datetime 2024 12 31);
        (2500%Z, datetime 2024 2 15, datetime 2024 11 15) ].
Proof. cbv zeta. split; [|split]; vm_compute; reflexivity. Qed.

(** ** The tabs, one at a time *)

Lemma bind_run {A B} (m : M A) (k : A → M B) (s s' : Session) (x : A) :
  m s = (inr x, s') → (m ≫= k) s = k x s'.
Proof. intros H. unfold mbind, M_bind. by rewrite H. Qed.

Lemma len_status_mask (f : DataFrame) (v : string) :
  len (getitem_mask f (series_eq (status <$> rows f) v))
  = Z.of_nat (length (filter (λ d, status d = v) (rows f))).
Proof.
  unfold len, getitem_mask, series_eq. cbn [rows].
  rewrite <- list_fmap_compose.
  rewrite (boolean_index_filter _ (λ d, status d = v)); [done|].
  intros d. cbn. apply String.eqb_eq.
Qed.

Lemma tab1_run (s : Session) (df : nat) (f : DataFrame) :
  frames s !! df = Some f →
  tab1 df s
  = (inr tt, {| frames := frames s; screen := screen s ++ overview_screen f |}).
Proof.
  intros H. unfold tab1. run. rewrite H. cbn.
  by rewrite len_status_mask.
Qed.

Lemma filtered_df_rows (f : DataFrame) (sel : list string) :
  rows (filtered_df f sel) = filter (λ d, tipo d ∈ sel) (rows f).
Proof.
  unfold filtered_df, getitem_mask, isin. cbn [rows].
  rewrite <- list_fmap_compose.
  apply boolean_index_filter. intros d. cbn. apply existsb_eqb_elem_of.
Qed.

Lemma tab3_run (ws : Widgets) (s : Session) (df : nat) (f : DataFrame) :
  frames s !! df = Some f →
  tab3 ws df s
  = (inr tt, {| frames := frames s; screen := screen s ++ inventory_screen ws f |}).
Proof.
  intros H. unfold tab3. run. rewrite H. cbn.
  unfold getitem. cbn. rewrite filtered_df_rows.
  fold (selection ws f) (selected_device ws (device_id <$> rows f))
    (selected_status ws).
  unfold inventory_screen, inventory_table.
  destruct (clicked ws); cbn; rewrite <- ?app_assoc; try rewrite app_nil_r; reflexivity.
Qed.

Lemma pd_Timestamp_ok (t : Timestamp) :
  valid_timestamp t → pd_Timestamp t = inr t.
Proof.
  intros [Hlo Hhi]. unfold pd_Timestamp.
  destruct (Z.ltb_spec Int64.min_int t); [|lia].
  destruct (Z.leb_spec t Int64.max_int); [|lia].
  done.
Qed.

Lemma pd_Timestamp_raises (t : Timestamp) :
  ¬ valid_timestamp t → pd_Timestamp t = inl OutOfBoundsDatetime.
Proof.
  intros Hno. unfold pd_Timestamp, valid_timestamp in *.
  destruct (Z.ltb_spec Int64.min_int t); [|done].
  destruct (Z.leb_spec t Int64.max_int); [lia|done].
Qed.

Lemma series_sub_timestamp_ok (t0 : Timestamp) (l : list Device) :
  Forall (representable t0) l →
  series_sub_timestamp (final_arrendamiento <$> l) t0
  = inr ((λ d, (final_arrendamiento d - t0)%Z) <$> l).
Proof.
  induction 1 as [|d l [Hlo Hhi] _ IH]; [done|].
  cbn. rewrite IH. unfold timedelta.
  destruct (Z.ltb_spec Int64.min_int (final_arrendamiento d - t0)); [|lia].
  destruct (Z.leb_spec (final_arrendamiento d - t0) Int64.max_int); [|lia].
  done.
Qed.

Lemma series_sub_datetime_ok (current_date : Timestamp) (l : list Device) :
  valid_timestamp current_date →
  Forall (representable current_date) l →
  series_sub_datetime (final_arrendamiento <$> l) current_date
  = inr ((λ d, (final_arrendamiento d - current_date)%Z) <$> l).
Proof.
  intros Hclock Hrep. unfold series_sub_datetime.
  rewrite (pd_Timestamp_ok _ Hclock). by apply series_sub_timestamp_ok.
Qed.

Lemma dt_days_delta (current_date : Timestamp) (l : list Device) :
  dt_days ((λ d, (final_arrendamiento d - current_date)%Z) <$> l)
  = days_to_expiration current_date <$> l.
Proof. unfold dt_days. by rewrite <- list_fmap_compose. Qed.

(** The frame of the leases that expire soon, once the day counts are in
    the frame: the selected records, each with its own ROI and day count. *)
Lemma expiring_soon_run (current_date : Timestamp) (f : DataFrame) :
  let soon := filter (λ d, (days_to_expiration current_date d ≤ 60)%Z) (rows f) in
  expiring_soon (setitem_dias f (days_to_expiration current_date <$> rows f))
  = inr {| rows := soon;
           roi := boolean_index
                    (series_le (days_to_expiration current_date <$> rows f) 60)
                  <$> roi f;
           dias_para_vencimiento := Some (days_to_expiration current_date <$> soon) |}.
Proof.
  unfold expiring_soon, getitem_mask, series_le. cbn.
  rewrite boolean_index_fmap, <- list_fmap_compose.
  rewrite (boolean_index_filter _ (λ d, (days_to_expiration current_date d ≤ 60)%Z));
    [done|].
  intros d. cbn. apply Z.leb_le.
Qed.

Lemma tab4_run (current_date : Timestamp) (s : Session) (df : nat) (f : DataFrame) :
  frames s !! df = Some f →
  valid_timestamp current_date →
  Forall (representable current_date) (rows f) →
  tab4 current_date df s
  = (inr tt,
     {| frames :=
          <[df := setitem_dias f (days_to_expiration current_date <$> rows f)]>
            (frames s);
        screen := screen s ++ leases_screen current_date f |}).
Proof.
  intros H Hclock Hrep. pose proof (lookup_lt_Some _ _ _ H) as Hlt.
  unfold tab4, leases_screen. run. rewrite H. cbn.
  rewrite (series_sub_datetime_ok _ _ Hclock Hrep), dt_days_delta. cbn.
  rewrite list_lookup_insert_eq by done. cbn.
  rewrite expiring_soon_run. cbn.
  destruct (filter _ (rows f)) as [|d soon] eqn:E; cbn.
  - rewrite list_lookup_insert_eq by done. reflexivity.
  - unfold getitem. cbn.
    rewrite list_lookup_insert_eq by done. reflexivity.
Qed.

Lemma series_sub_timestamp_raises (t0 : Timestamp) (l : Series Timestamp)
    (e : exn) :
  series_sub_timestamp l t0 = inl e → e = OverflowError.
Proof.
  induction l as [|t l IH]; cbn; [done|].
  unfold timedelta. destruct (_ && _).
  - destruct (series_sub_timestamp l t0); [|done].
    intros [= <-]. by apply IH.
  - by intros [= <-].
Qed.

Lemma series_sub_datetime_raises (current_date : Timestamp) (l : Series Timestamp)
    (e : exn) :
  series_sub_datetime l current_date = inl e →
  valid_timestamp current_date ∧ e = OverflowError
  ∨ ¬ valid_timestamp current_date ∧ e = OutOfBoundsDatetime.
Proof.
  unfold series_sub_datetime.
  destruct (decide (valid_timestamp current_date)) as [Hclock|Hclock].
  - rewrite (pd_Timestamp_ok _ Hclock). intros E.
    left. split; [done|]. by eapply series_sub_timestamp_raises.
  - rewrite (pd_Timestamp_raises _ Hclock). intros [= <-]. by right.
Qed.

(** Whatever the date, the lease tab completes or stops in the subtraction,
    on a clock reading that is not a timestamp or on a time difference that
    is not representable; it only adds to the screen and at most adds the
    day counts to the frame. *)
Lemma tab4_frame (current_date : Timestamp) (s : Session) (df : nat) (f : DataFrame) :
  frames s !! df = Some f →
  ∃ (r : exn + unit) (f' : DataFrame) (out : list Placed),
    tab4 current_date df s
    = (r, {| frames := <[df := f']> (frames s); screen := screen s ++ out |})
    ∧ rows f' = rows f ∧ roi f' = roi f
    ∧ (r = inr tt ∨ r = inl OverflowError ∨ r = inl OutOfBoundsDatetime).
Proof.
  intros H. pose proof (lookup_lt_Some _ _ _ H) as Hlt.
  unfold tab4. run. rewrite H. cbn.
  destruct (series_sub_datetime _ _) as [e | delta] eqn:E; cbn.
  - exists (inl e), f. eexists. rewrite list_insert_id by done.
    apply series_sub_datetime_raises in E as [[_ ->] | [_ ->]]; eauto 10.
  - rewrite list_lookup_insert_eq by done. cbn.
    unfold expiring_soon. cbn.
    destruct (empty _); cbn.
    + rewrite list_lookup_insert_eq by done. cbn. eexists _, _, _. eauto.
    + unfold getitem. cbn.
      rewrite list_lookup_insert_eq by done. cbn. eexists _, _, _. eauto.
Qed.

(** ** A render pass *)

Lemma main_run (ws : Widgets) (now : Timestamp) (s : Session) :
  main ws now s
  = tab4 now (length (frames s))
      {| frames := frames s ++ [with_roi]; screen := screen s ++ pass_screen ws |}.
Proof.
  unfold main.
  erewrite bind_run by reflexivity.
  erewrite bind_run by reflexivity.
  erewrite bind_run by reflexivity.
  erewrite bind_run
    by (apply (calculate_roi_run _ _ (pd_DataFrame devices)); cbn; apply lookup_end).
  cbn [frames screen]. rewrite insert_end. fold with_roi.
  erewrite bind_run by reflexivity.
  erewrite bind_run by (apply (tab1_run _ _ with_roi); cbn; apply lookup_end).
  erewrite bind_run
    by (apply (tab2_run _ _ with_roi (roi_of <$> devices));
        [cbn; apply lookup_end | reflexivity]).
  erewrite bind_run by (apply (tab3_run _ _ _ with_roi); cbn; apply lookup_end).
  cbn [frames screen]. unfold pass_screen. cbn [draw]. 
  do 2 f_equal. unfold draw. cbn. rewrite <- !app_assoc. reflexivity.
Qed.

(** A render pass completes, or stops in the subtraction of the lease tab;
    it adds one frame, which holds the records as built, and the first
    three tabs are drawn in full either way. *)
Lemma main_frames (ws : Widgets) (now : Timestamp) (s : Session) :
  ∃ (f' : DataFrame) (out : list Placed),
    frames (exec (main ws now) s) = frames s ++ [f']
    ∧ screen (exec (main ws now) s) = (screen s ++ pass_screen ws) ++ out
    ∧ rows f' = devices
    ∧ (eval (main ws now) s = inr tt
       ∨ eval (main ws now) s = inl OverflowError
       ∨ eval (main ws now) s = inl OutOfBoundsDatetime).
Proof.
  unfold exec, eval. rewrite main_run.
  destruct (tab4_frame now
              {| frames := frames s ++ [with_roi];
                 screen := screen s ++ pass_screen ws |}
              (length (frames s)) with_roi (lookup_end _ _))
    as (r & f' & out & -> & Hrows & _ & Hr).
  exists f', out. cbn. by rewrite insert_end.
Qed.

Lemma in_pass_screen (ws : Widgets) (now : Timestamp) (s : Session) (p : Placed) :
  In p (pass_screen ws) → In p (screen (exec (main ws now) s)).
Proof.
  intros H. destruct (main_frames ws now s) as (f' & out & _ & -> & _ & _).
  apply in_or_app. left. apply in_or_app. by right.
Qed.

(** ** The overview metrics *)

(** C2. The metric of active devices shows, for any frame, the number of
    records whose status is exactly the string [Active]; every status of
    the sample data is another string ([Activo] or [Mantenimiento]), so in
    every render pass, whatever the widgets and the clock, the metric
    shows 0. *)
Theorem active_metric_is_zero (ws : Widgets) (now : Timestamp) (s : Session) :
  (∀ (s0 : Session) (df : nat) (f : DataFrame),
     frames s0 !! df = Some f →
     In (["tab1"; "col4"],
         metric "Dispositivos activos"
           (PyInt (Z.of_nat (length (filter (λ d, status d = "Active") (rows f))))))
        (screen (exec (tab1 df) s0)))
  ∧ In (["tab1"; "col4"], metric "Dispositivos activos" (PyInt 0))
       (screen (exec (main ws now) s))
  ∧ Forall (λ d, status d = "Activo" ∨ status d = "Mantenimiento") devices
  ∧ Forall (λ d, status d ≠ "Active") devices.
Proof.
  split; [|split; [|split]].
  - intros s0 df f H. unfold exec. rewrite (tab1_run _ _ _ H). cbn.
    apply in_or_app. right. unfold overview_screen, active_count. find_in.
  - apply in_pass_screen. unfold pass_screen.
    apply in_or_app. right. apply in_or_app. left. find_in.
  - repeat (constructor; [first [by left | by right]|]). constructor.
  - repeat (constructor; [discriminate|]). constructor.
Qed.

Lemma active_metric_is_zero_witness :
  In (["tab1"; "col4"], metric "Dispositivos activos" (PyInt 0))
     (screen (exec (tab1 0) built)).
Proof.
  exact (proj1 (active_metric_is_zero
                  {| chosen_tipos := None; chosen_device := None;
                     chosen_status := None; clicked := false |}
                  0%Z fresh_session)
           built 0 (pd_DataFrame devices) eq_refl).
Defined.

(** C9. In every render pass, whatever the selection of the category
    filter, the other widgets and the clock, the income metric of the
    overview shows the arithmetic sum of [ingreso_arrendamiento] over all
    the records of the dataset, 7800, printed as [$7,800.00].  For any
    frame the metric shows the sum of the column, which is the arithmetic
    sum as long as [int64] holds it. *)
Theorem overview_income_is_total (ws : Widgets) (now : Timestamp) (s : Session) :
  In (["tab1"; "col2"],
      metric "Ingreso mensual total"
        (PyStr ("$" ++ format_comma_2f (total (ingreso_arrendamiento <$> devices)))))
     (screen (exec (main ws now) s))
  ∧ total (ingreso_arrendamiento <$> devices) = 7800%Z
  ∧ ("$" ++ format_comma_2f (total (ingreso_arrendamiento <$> devices)))%string
    = "$7,800.00"
  ∧ (∀ (s0 : Session) (df : nat) (f : DataFrame),
       frames s0 !! df = Some f →
       Int64.in_range (total (ingreso_arrendamiento <$> rows f)) →
       In (["tab1"; "col2"],
           metric "Ingreso mensual total"
             (PyStr ("$" ++ format_comma_2f
                       (total (ingreso_arrendamiento <$> rows f)))))
          (screen (exec (tab1 df) s0))).
Proof.
  split; [|split; [|split]].
  - apply in_pass_screen. unfold pass_screen.
    apply in_or_app. right. apply in_or_app. left. find_in.
  - reflexivity.
  - reflexivity.
  - intros s0 df f H Hsum. unfold exec. rewrite (tab1_run _ _ _ H). cbn.
    apply in_or_app. right. unfold overview_screen.
    rewrite series_sum_wrap. fold (total (ingreso_arrendamiento <$> rows f)).
    rewrite (wrap_in_range _ Hsum). find_in.
Qed.

Lemma overview_income_is_total_witness :
  In (["tab1"; "col2"], metric "Ingreso mensual total" (PyStr "$7,800.00"))
     (screen (exec (tab1 0) built)).
Proof.
  refine (proj2 (proj2 (proj2 (overview_income_is_total
                  {| chosen_tipos := Some ["Impresora"]; chosen_device := None;
                     chosen_status := None; clicked := false |}
                  0%Z fresh_session)))
           built 0 (pd_DataFrame devices) eq_refl _).
  vm_compute. intuition discriminate.
Defined.

(** ** The inventory tab *)

(** C4. Whatever the category filter returns, a selection made by the user
    or, when the filter is untouched, all the categories, the frame
    [filtered_df] holds a record exactly when the record is in the dataset
    and its category is among the selected ones; the records keep their
    order and multiplicity, and the table drawn in the inventory tab is made
    of these records. *)
Theorem inventory_filter_exact
    (ws : Widgets) (s : Session) (df : nat) (f : DataFrame) (sel : list string) :
  frames s !! df = Some f →
  selection ws f = sel →
  (∀ d : Device, d ∈ rows (filtered_df f sel) ↔ d ∈ rows f ∧ tipo d ∈ sel)
  ∧ rows (filtered_df f sel) = filter (λ d, tipo d ∈ sel) (rows f)
  ∧ eval (tab3 ws df) s = inr tt
  ∧ In (["tab3"], dataframe (inventory_table (rows (filtered_df f sel))))
       (screen (exec (tab3 ws df) s)).
Proof.
  intros H Hsel. rewrite filtered_df_rows. split; [|split; [done|]].
  - intros d. rewrite list_elem_of_filter. tauto.
  - unfold eval, exec. rewrite (tab3_run _ _ _ _ H). cbn. split; [done|].
    apply in_or_app. right. unfold inventory_screen. rewrite Hsel.
    find_in.
Qed.

Lemma inventory_filter_exact_witness :
  In (["tab3"],
      dataframe
        [ ("device_id", StrCol ["P001"; "P002"]);
          ("tipo", StrCol ["Impresora"; "Impresora"]);
          ("model", StrCol ["HP LaserJet"; "Canon ImageRUNNER"]);
          ("status", StrCol ["Activo"; "Activo"]);
          ("cliente", StrCol ["Compañía A"; "Compañía B"]);
          ("ingreso_arrendamiento", IntCol [2000; 2500]%Z);
          ("costo_mantenimiento", IntCol [500; 750]%Z) ])
     (screen (exec (tab3 {| chosen_tipos := Some ["Impresora"];
                            chosen_device := None; chosen_status := None;
                            clicked := false |} 0) prepared)).
Proof.
  exact (proj2 (proj2 (proj2
           (inventory_filter_exact
              {| chosen_tipos := Some ["Impresora"]; chosen_device := None;
                 chosen_status := None; clicked := false |}
              prepared 0 with_roi ["Impresora"] eq_refl eq_refl)))).
Defined.

(** C6. When the button is clicked with a device of the dataset and one of
    the three statuses selected (by the user or by default), the render
    pass draws the confirmation for that device and status; the inventory
    tab leaves every frame as it is; at the end of the pass the frames that
    existed are untouched and the frame of the pass holds the records as
    built, so every field of every record, the status of the selected
    device included, is what it was; and the frame that the next render
    pass builds and draws from holds the same records again. *)
Theorem status_update_is_display_only
    (ws : Widgets) (now : Timestamp) (s : Session) (device new_status : string) :
  clicked ws = true →
  selected_device ws (device_id <$> devices) = Some device →
  selected_status ws = Some new_status →
  device ∈ device_id <$> devices →
  new_status ∈ ["Activo"; "Mantenimiento"; "Inactivo"] →
  In (["tab3"], success ("Estado de " ++ device ++ " actualizado a " ++ new_status))
     (screen (exec (main ws now) s))
  ∧ (∀ (s0 : Session) (df : nat) (f : DataFrame),
       frames s0 !! df = Some f → frames (exec (tab3 ws df) s0) = frames s0)
  ∧ (∃ f' : DataFrame,
       frames (exec (main ws now) s) = frames s ++ [f'] ∧ rows f' = devices)
  ∧ (∀ (ws' : Widgets) (now' : Timestamp),
       ∃ f'' : DataFrame,
         frames (exec (main ws' now') (exec (main ws now) s))
         = frames (exec (main ws now) s) ++ [f'']
         ∧ rows f'' = devices).
Proof.
  intros Hclick Hdev Hst _ _. split; [|split; [|split]].
  - apply in_pass_screen. unfold pass_screen.
    do 3 (apply in_or_app; right).
    unfold inventory_screen. change (rows with_roi) with devices.
    rewrite Hclick, Hdev, Hst. apply in_or_app. right. left. reflexivity.
  - intros s0 df f H. unfold exec. by rewrite (tab3_run _ _ _ _ H).
  - destruct (main_frames ws now s) as (f' & out & Hf & _ & Hrows & _). eauto.
  - intros ws' now'.
    destruct (main_frames ws' now' (exec (main ws now) s))
      as (f'' & out & Hf & _ & Hrows & _). eauto.
Qed.

Lemma status_update_is_display_only_witness :
  In (["tab3"], success "Estado de C002 actualizado a Inactivo")
     (screen (exec (main {| chosen_tipos := None; chosen_device := Some "C002";
                            chosen_status := Some "Inactivo"; clicked := true |}
                      (datetime 2024 10 1)) fresh_session)).
Proof.
  refine (proj1 (status_update_is_display_only
                   {| chosen_tipos := None; chosen_device := Some "C002";
                      chosen_status := Some "Inactivo"; clicked := true |}
                   (datetime 2024 10 1) fresh_session "C002" "Inactivo"
                   eq_refl eq_refl eq_refl _ _)).
  - cbn. do 3 right. left.
  - do 2 right. left.
Defined.

(** ** The lease tab *)

(** C3, as stated, fails: not every evaluation date gives a set of expiring
    leases.  On 2300-01-01 every lease of the dataset has ended, so every
    day count is below 60; but the date is beyond [datetime64[ns]], the
    subtraction raises, and the tab stops after its two headings with no
    record listed and no day counts in the frame.  The same happens on a
    date that the unit holds when a lease end is too far from it for a time
    difference: a lease that ended in 1700, evaluated in 2200. *)
Lemma expiring_soon_stops_on_far_dates :
  (Forall (λ d, (days_to_expiration (datetime 2300 1 1) d ≤ 60)%Z) devices
   ∧ tab4 (datetime 2300 1 1) 0 prepared
     = (inl OutOfBoundsDatetime,
        {| frames := [with_roi]; screen := leases_screen_raised |}))
  ∧ (valid_timestamp (datetime 2200 1 1)
     ∧ Forall (λ f, datetime64_columns f
                    ∧ Forall (λ d, (days_to_expiration (datetime 2200 1 1) d ≤ 60)%Z)
                        (rows f))
         (frames long_expired)
     ∧ tab4 (datetime 2200 1 1) 0 long_expired
       = (inl OverflowError,
          {| frames := frames long_expired; screen := leases_screen_raised |})).
Proof.
  split; [split|split; [|split]].
  - repeat constructor; vm_compute; discriminate.
  - vm_compute. reflexivity.
  - vm_compute. split; [reflexivity | discriminate].
  - repeat constructor; vm_compute; (reflexivity || discriminate).
  - vm_compute. reflexivity.
Qed.

(** C3, amended.  For every frame of [datetime64[ns]] dates and every
    evaluation date that is a timestamp of that unit and from which the
    time to each lease end is representable, the lease tab completes, and
    the frame [expiring_soon] holds a record exactly when the record is in
    the dataset and its day count, the difference of lease end and date in
    whole days, is at most 60; a record with a count of exactly 60 is
    included, as is one with a negative count.  The records keep their
    order, the warning table is made of them, and the message for no
    expiring lease is drawn when there is none. *)
Theorem expiring_soon_exact
    (now : Timestamp) (s : Session) (df : nat) (f : DataFrame) :
  frames s !! df = Some f →
  datetime64_columns f →
  valid_timestamp now →
  Forall (representable now) (rows f) →
  ∃ soon : DataFrame,
    expiring_soon (setitem_dias f (days_to_expiration now <$> rows f)) = inr soon
    ∧ (∀ d : Device,
         d ∈ rows soon ↔ d ∈ rows f ∧ (days_to_expiration now d ≤ 60)%Z)
    ∧ (∀ d : Device,
         d ∈ rows f → days_to_expiration now d = 60%Z → d ∈ rows soon)
    ∧ rows soon = filter (λ d, (days_to_expiration now d ≤ 60)%Z) (rows f)
    ∧ dias_para_vencimiento soon = Some (days_to_expiration now <$> rows soon)
    ∧ eval (tab4 now df) s = inr tt
    ∧ frames (exec (tab4 now df) s)
      = <[df := setitem_dias f (days_to_expiration now <$> rows f)]> (frames s)
    ∧ In (["tab4"],
          if empty soon
          then info "No leases expiring in the next 60 days."
          else dataframe (expiring_table now (rows soon)))
         (screen (exec (tab4 now df) s)).
Proof.
  intros H _ Hclock Hrep.
  eexists. split; [apply expiring_soon_run|]. cbn [rows dias_para_vencimiento].
  split; [|split; [|split; [done|split; [done|]]]].
  - intros d. rewrite list_elem_of_filter. tauto.
  - intros d Hd Hdays. rewrite list_elem_of_filter. split; [lia | done].
  - unfold eval, exec. rewrite (tab4_run _ _ _ _ H Hclock Hrep). cbn.
    split; [done|]. split; [done|].
    apply in_or_app. right. unfold leases_screen, empty. cbn [rows].
    destruct (filter _ (rows f)); cbn; find_in.
Qed.

Lemma expiring_soon_exact_witness :
  In (["tab4"],
      dataframe
        [ ("device_id", StrCol ["P002"; "C002"]);
          ("tipo", StrCol ["Impresora"; "Computadora"]);
          ("cliente", StrCol ["Compañía B"; "Compañía D"]);
          ("inicio_arrendamiento", TimeCol [datetime 2024 2 15; datetime 2024 1 15]);
          ("final_arrendamiento", TimeCol [datetime 2024 11 15; datetime 2024 10 15]);
          ("dias_para_vencimiento", IntCol [60; 29]%Z) ])
     (screen (exec (tab4 (datetime 2024 9 16) 0) prepared)).
Proof.
  destruct (expiring_soon_exact (datetime 2024 9 16) prepared 0 with_roi eq_refl)
    as (soon & _ & _ & _ & Hrows & _ & _ & _ & Hin).
  - repeat constructor; vm_compute; (reflexivity || discriminate).
  - vm_compute. split; [reflexivity | discriminate].
  - repeat (constructor; [by vm_compute|]). constructor.
  - unfold empty in Hin. rewrite Hrows in Hin.
    replace (filter (λ d, (days_to_expiration (datetime 2024 9 16) d ≤ 60)%Z)
               (rows with_roi))
      with [ {| device_id := "P002"; tipo := "Impresora";
                model := "Canon ImageRUNNER"; total_copies := 22000;
                costo_mantenimiento := 750; ingreso_arrendamiento := 2500;
                inicio_arrendamiento := datetime 2024 2 15;
                final_arrendamiento := datetime 2024 11 15;
                status := "Activo"; cliente := "Compañía B" |};
             {| device_id := "C002"; tipo := "Computadora";
                model := "MacBook Pro"; total_copies := 0;
                costo_mantenimiento := 450; ingreso_arrendamiento := 1800;
                inicio_arrendamiento := datetime 2024 1 15;
                final_arrendamiento := datetime 2024 10 15;
                status := "Mantenimiento"; cliente := "Compañía D" |} ]
      in Hin by (vm_compute; reflexivity).
    replace [60; 29]%Z
      with (days_to_expiration (datetime 2024 9 16)
              <$> [ {| device_id := "P002"; tipo := "Impresora";
                       model := "Canon ImageRUNNER"; total_copies := 22000;
                       costo_mantenimiento := 750; ingreso_arrendamiento := 2500;
                       inicio_arrendamiento := datetime 2024 2 15;
                       final_arrendamiento := datetime 2024 11 15;
                       status := "Activo"; cliente := "Compañía B" |};
                    {| device_id := "C002"; tipo := "Computadora";
                       model := "MacBook Pro"; total_copies := 0;
                       costo_mantenimiento := 450; ingreso_arrendamiento := 1800;
                       inicio_arrendamiento := datetime 2024 1 15;
                       final_arrendamiento := datetime 2024 10 15;
                       status := "Mantenimiento"; cliente := "Compañía D" |} ])
      by (vm_compute; reflexivity).
    exact Hin.
Defined.

(** * Further properties of the script *)

(** ** Recomputing the ROI *)

(** X1. Calling [calculate_roi] a second time on the frame it returned
    changes nothing: the result, the store and the screen are those of the
    first call, whether or not the frame had a [roi] column before and also
    when the reference is to no frame. *)
Theorem calculate_roi_idempotent (s : Session) (df : nat) :
  (calculate_roi df ≫= calculate_roi) s = calculate_roi df s.
Proof.
  destruct (frames s !! df) as [f|] eqn:H.
  - pose proof (lookup_lt_Some _ _ _ H) as Hlt.
    rewrite (bind_run _ _ _ _ _ (calculate_roi_run s df f H)).
    rewrite (calculate_roi_run _ df (setitem_roi f (roi_of <$> rows f)))
      by (cbn; by apply list_lookup_insert_eq).
    rewrite (calculate_roi_run s df f H). cbn.
    by rewrite list_insert_insert_eq.
  - unfold calculate_roi. run. by rewrite H.
Qed.

(** ** Derived frames *)

Lemma getitem_mask_aligned (now : Timestamp) (f : DataFrame) (mask : Series bool) :
  roi_aligned f →
  dias_aligned now f →
  roi_aligned (getitem_mask f mask) ∧ dias_aligned now (getitem_mask f mask).
Proof.
  intros Hroi Hdias. unfold roi_aligned, dias_aligned, getitem_mask. cbn. split.
  - intros rois. destruct (roi f) as [r|] eqn:E; [|done].
    intros [= <-]. rewrite (Hroi r E). apply boolean_index_fmap.
  - intros dias. destruct (dias_para_vencimiento f) as [ds|] eqn:E; [|done].
    intros [= <-]. rewrite (Hdias ds E). apply boolean_index_fmap.
Qed.

(** X2. Selecting records keeps each record's derived values with it: when
    the ROI and day-count columns of a frame hold the values of its own
    records, so do those of [filtered_df], for any selection of categories,
    of [expiring_soon], and of the frame selected by any other mask. *)
Theorem selection_keeps_alignment (now : Timestamp) (f : DataFrame) :
  roi_aligned f →
  dias_aligned now f →
  (∀ sel : list string,
     roi_aligned (filtered_df f sel) ∧ dias_aligned now (filtered_df f sel))
  ∧ (∀ soon : DataFrame,
       expiring_soon f = inr soon → roi_aligned soon ∧ dias_aligned now soon)
  ∧ (∀ mask : Series bool,
       roi_aligned (getitem_mask f mask) ∧ dias_aligned now (getitem_mask f mask)).
Proof.
  intros Hroi Hdias. split; [|split].
  - intros sel. by apply getitem_mask_aligned.
  - intros soon. unfold expiring_soon.
    destruct (dias_para_vencimiento f); [|done].
    intros [= <-]. by apply getitem_mask_aligned.
  - intros mask. by apply getitem_mask_aligned.
Qed.

Lemma selection_keeps_alignment_witness :
  ∃ (rois : Series float) (dias : Series Z),
    roi (filtered_df
           (setitem_dias with_roi
              (days_to_expiration (datetime 2024 9 16) <$> devices))
           ["Computadora"])
    = Some rois
    ∧ dias_para_vencimiento
        (filtered_df
           (setitem_dias with_roi
              (days_to_expiration (datetime 2024 9 16) <$> devices))
           ["Computadora"])
      = Some dias
    ∧ rois = [400%float; 300%float]
    ∧ dias = [106%Z; 29%Z].
Proof.
  destruct (selection_keeps_alignment (datetime 2024 9 16)
              (setitem_dias with_roi
                 (days_to_expiration (datetime 2024 9 16) <$> devices)))
    as (Hsel & _).
  - by intros rois [= <-].
  - by intros dias [= <-].
  - destruct (Hsel ["Computadora"]) as [Hroi Hdias].
    eexists _, _. split; [reflexivity|]. split; [reflexivity|]. split.
    + etransitivity; [apply Hroi; reflexivity | reflexivity].
    + etransitivity; [apply Hdias; reflexivity | reflexivity].
Defined.

(** ** The category filter *)

Lemma elem_of_unique (x : string) (l : Series string) : x ∈ unique l ↔ x ∈ l.
Proof.
  induction l as [|y l IH]; cbn; [done|].
  rewrite !elem_of_cons, list_elem_of_In, filter_In, <- list_elem_of_In, IH.
  rewrite negb_true_iff, String.eqb_neq.
  destruct (decide (x = y)) as [->|Hne]; tauto.
Qed.

Lemma NoDup_unique (l : Series string) : NoDup (unique l).
Proof.
  induction l as [|y l IH]; cbn; [constructor|].
  apply NoDup_cons_2.
  - rewrite list_elem_of_In, filter_In, negb_true_iff, String.eqb_neq. tauto.
  - apply NoDup_ListNoDup, List.NoDup_filter. by apply NoDup_ListNoDup.
Qed.

(** X3. The options that the category filter offers, which are also its
    default, are the categories that occur in the frame, each once, and the
    first option is the category of the first record. *)
Theorem filter_options_distinct
    (ws : Widgets) (s : Session) (df : nat) (f : DataFrame) :
  frames s !! df = Some f →
  In (["tab3"],
      multiselect "Filtrar por tipo de dispositivo"
        (unique (tipo <$> rows f)) (unique (tipo <$> rows f)))
     (screen (exec (tab3 ws df) s))
  ∧ NoDup (unique (tipo <$> rows f))
  ∧ (∀ x : string,
       x ∈ unique (tipo <$> rows f) ↔ ∃ d : Device, d ∈ rows f ∧ tipo d = x)
  ∧ head (unique (tipo <$> rows f)) = head (tipo <$> rows f).
Proof.
  intros H. split; [|split; [apply NoDup_unique|split]].
  - unfold exec. rewrite (tab3_run _ _ _ _ H). cbn.
    apply in_or_app. right. unfold inventory_screen. find_in.
  - intros x. rewrite elem_of_unique, list_elem_of_fmap. split.
    + intros (d & -> & Hd). eauto.
    + intros (d & Hd & <-). eauto.
  - by destruct (rows f).
Qed.

Lemma filter_options_distinct_witness :
  In (["tab3"],
      multiselect "Filtrar por tipo de dispositivo"
        ["Impresora"; "Computadora"] ["Impresora"; "Computadora"])
     (screen (exec (tab3 {| chosen_tipos := None; chosen_device := None;
                            chosen_status := None; clicked := false |} 0)
                prepared)).
Proof.
  exact (proj1 (filter_options_distinct
                  {| chosen_tipos := None; chosen_device := None;
                     chosen_status := None; clicked := false |}
                  prepared 0 with_roi eq_refl)).
Defined.

Lemma filter_all_iff {A} (P : A → Prop) `{!∀ x, Decision (P x)} (l : list A) :
  filter P l = l ↔ ∀ x, x ∈ l → P x.
Proof.
  split.
  - intros E x Hx. rewrite <- E in Hx. by apply list_elem_of_filter in Hx as [? _].
  - induction l as [|x l IH]; intros Hall; [done|].
    rewrite filter_cons_True by (apply Hall; left).
    f_equal. apply IH. intros y Hy. apply Hall. by right.
Qed.

Lemma filter_none_iff {A} (P : A → Prop) `{!∀ x, Decision (P x)} (l : list A) :
  filter P l = [] ↔ ∀ x, x ∈ l → ¬ P x.
Proof.
  split.
  - intros E x Hx HP. by eapply filter_nil_not_elem_of.
  - induction l as [|x l IH]; intros Hall; [done|].
    rewrite filter_cons_False by (apply Hall; left).
    apply IH. intros y Hy. apply Hall. by right.
Qed.

(** X4. With the category filter untouched the inventory table shows every
    record of the frame.  In general [filtered_df] holds all the records
    exactly when every category that occurs is selected, and no record
    exactly when none of the categories that occur is selected; categories
    that do not occur, repetitions and the order of the selection make no
    difference. *)
Theorem filter_all_or_nothing
    (ws : Widgets) (s : Session) (df : nat) (f : DataFrame) :
  frames s !! df = Some f →
  chosen_tipos ws = None →
  In (["tab3"], dataframe (inventory_table (rows f)))
     (screen (exec (tab3 ws df) s))
  ∧ (∀ sel : list string,
       rows (filtered_df f sel) = rows f ↔ ∀ d, d ∈ rows f → tipo d ∈ sel)
  ∧ (∀ sel : list string,
       rows (filtered_df f sel) = [] ↔ ∀ d, d ∈ rows f → tipo d ∉ sel)
  ∧ (∀ sel sel' : list string,
       (∀ d, d ∈ rows f → (tipo d ∈ sel ↔ tipo d ∈ sel')) →
       rows (filtered_df f sel) = rows (filtered_df f sel')).
Proof.
  intros H Hnone. split; [|split; [|split]].
  - unfold exec. rewrite (tab3_run _ _ _ _ H). cbn.
    apply in_or_app. right. unfold inventory_screen, selection. rewrite Hnone.
    replace (filter _ (rows f)) with (rows f); [find_in|].
    symmetry. apply filter_all_iff. intros d Hd.
    apply elem_of_unique, list_elem_of_fmap. eauto.
  - intros sel. rewrite filtered_df_rows. apply filter_all_iff.
  - intros sel. rewrite filtered_df_rows. apply filter_none_iff.
  - intros sel sel' Hsame. rewrite !filtered_df_rows.
    induction (rows f) as [|d l IH]; [done|].
    assert (Hd : tipo d ∈ sel ↔ tipo d ∈ sel') by (apply Hsame; left).
    assert (Hl : filter (λ d, tipo d ∈ sel) l = filter (λ d, tipo d ∈ sel') l)
      by (apply IH; intros; apply Hsame; by right).
    destruct (decide (tipo d ∈ sel)) as [Hin|Hout].
    + rewrite !filter_cons_True by tauto. by rewrite Hl.
    + rewrite !filter_cons_False by tauto. done.
Qed.

Lemma filter_all_or_nothing_witness :
  In (["tab3"], dataframe (inventory_table devices))
     (screen (exec (tab3 {| chosen_tipos := None; chosen_device := None;
                            chosen_status := None; clicked := false |} 0)
                prepared)).
Proof.
  exact (proj1 (filter_all_or_nothing
                  {| chosen_tipos := None; chosen_device := None;
                     chosen_status := None; clicked := false |}
                  prepared 0 with_roi eq_refl eq_refl)).
Defined.

(** ** Counting and grouping *)

Lemma List_filter_stdpp {A} (p : A → bool) (P : A → Prop)
    `{!∀ x, Decision (P x)} (l : list A) :
  (∀ x, p x = true ↔ P x) → List.filter p l = filter P l.
Proof.
  intros Hp. induction l as [|x l IH]; [done|].
  cbn [List.filter]. rewrite IH. destruct (p x) eqn:E.
  - rewrite filter_cons_True; [done | by apply Hp].
  - rewrite filter_cons_False; [done|]. intros HP. apply Hp in HP. congruence.
Qed.

Lemma total_app (l1 l2 : list Z) : total (l1 ++ l2) = (total l1 + total l2)%Z.
Proof. unfold total. induction l1 as [|x l1 IH]; cbn; lia. Qed.

Lemma total_perm (l1 l2 : list Z) : l1 ≡ₚ l2 → total l1 = total l2.
Proof. unfold total. induction 1; cbn; lia. Qed.

Lemma total_ones {A} (l : list A) : total ((λ _, 1%Z) <$> l) = Z.of_nat (length l).
Proof. unfold total. induction l as [|x l IH]; cbn; lia. Qed.

Lemma total_cons (x : Z) (l : list Z) : total (x :: l) = (x + total l)%Z.
Proof. reflexivity. Qed.

(** Splitting a list by the keys of a duplicate-free list of keys. *)
Lemma total_by_keys {A} (key : A → string) (g : A → Z) (ks : list string)
    (l : list A) :
  NoDup ks →
  total ((λ k, total (g <$> filter (λ a, key a = k) l)) <$> ks)
  = total (g <$> filter (λ a, key a ∈ ks) l).
Proof.
  induction 1 as [|k ks Hk _ IH].
  - replace (filter (λ a, key a ∈ []) l) with (@nil A); [done|].
    symmetry. apply filter_none_iff. intros a _. apply not_elem_of_nil.
  - rewrite fmap_cons, total_cons, IH. clear IH.
    induction l as [|a l IHl]; [done|].
    destruct (decide (key a = k)) as [E|E].
    + rewrite (filter_cons_True (λ a, key a = k)) by done.
      rewrite (filter_cons_True (λ a, key a ∈ k :: ks)) by (rewrite E; left).
      rewrite (filter_cons_False (λ a, key a ∈ ks)) by (by rewrite E).
      rewrite !fmap_cons, !total_cons, <- IHl. lia.
    + rewrite (filter_cons_False (λ a, key a = k)) by done.
      destruct (decide (key a ∈ ks)) as [Hin|Hout].
      * rewrite (filter_cons_True (λ a, key a ∈ k :: ks)) by (by right).
        rewrite (filter_cons_True (λ a, key a ∈ ks)) by done.
        rewrite !fmap_cons, !total_cons, <- IHl. lia.
      * rewrite (filter_cons_False (λ a, key a ∈ k :: ks))
          by (rewrite elem_of_cons; tauto).
        rewrite (filter_cons_False (λ a, key a ∈ ks)) by done.
        apply IHl.
Qed.

(** Grouping by the keys that occur loses nothing. *)
Lemma total_by_unique {A} (key : A → string) (g : A → Z) (l : list A) :
  total ((λ k, total (g <$> filter (λ a, key a = k) l)) <$> unique (key <$> l))
  = total (g <$> l).
Proof.
  rewrite total_by_keys by apply NoDup_unique. do 2 f_equal.
  apply filter_all_iff. intros a Ha.
  apply elem_of_unique, list_elem_of_fmap. eauto.
Qed.

Lemma total_by_values (g : string → Z) (l : Series string) :
  total ((λ k, total (g <$> filter (λ a, a = k) l)) <$> unique l)
  = total (g <$> l).
Proof.
  transitivity (total (g <$> filter (λ a, id a ∈ unique l) l)).
  - exact (total_by_keys id g (unique l) l (NoDup_unique l)).
  - do 2 f_equal. apply filter_all_iff. intros a Ha. by apply elem_of_unique.
Qed.

Lemma count_of_filter (x : string) (l : Series string) :
  count_of x l = Z.of_nat (length (filter (λ y, y = x) l)).
Proof.
  unfold count_of. do 2 f_equal. apply List_filter_stdpp.
  intros y. rewrite String.eqb_eq. split; congruence.
Qed.

Lemma length_filter_fmap {A} (g : A → string) (x : string) (l : list A) :
  length (filter (λ y, y = x) (g <$> l)) = length (filter (λ a, g a = x) l).
Proof.
  induction l as [|a l IH]; [done|]. rewrite fmap_cons.
  destruct (decide (g a = x)).
  - rewrite (filter_cons_True (λ y, y = x)) by done.
    rewrite (filter_cons_True (λ a, g a = x)) by done.
    cbn [length]. by rewrite IH.
  - rewrite (filter_cons_False (λ y, y = x)) by done.
    by rewrite (filter_cons_False (λ a, g a = x)) by done.
Qed.

Lemma insert_desc_perm (p : string * Z) (l : list (string * Z)) :
  insert_desc p l ≡ₚ p :: l.
Proof.
  induction l as [|q l IH]; cbn; [done|].
  destruct (_ <? _)%Z; [|done]. rewrite IH. apply Permutation_swap.
Qed.

Lemma value_counts_perm (l : Series string) :
  value_counts l ≡ₚ (λ x, (x, count_of x l)) <$> unique l.
Proof.
  unfold value_counts.
  induction ((λ x, (x, count_of x l)) <$> unique l) as [|p ps IH]; cbn; [done|].
  by rewrite insert_desc_perm, IH.
Qed.

Lemma insert_desc_sorted (p : string * Z) (l : list (string * Z)) :
  Sorted by_count_desc l → Sorted by_count_desc (insert_desc p l).
Proof.
  induction 1 as [|q l Hl IH Hq]; cbn.
  - repeat constructor.
  - destruct (Z.ltb_spec p.2 q.2) as [Hlt|Hge].
    + constructor; [done|].
      destruct Hq as [|r l Hr]; cbn.
      * constructor. unfold by_count_desc. lia.
      * destruct (_ <? _)%Z; constructor; unfold by_count_desc in *; lia.
    + constructor; [by constructor|]. constructor. unfold by_count_desc. lia.
Qed.

Lemma value_counts_sorted (l : Series string) : Sorted by_count_desc (value_counts l).
Proof.
  unfold value_counts.
  induction ((λ x, (x, count_of x l)) <$> unique l) as [|p ps IH]; cbn.
  - constructor.
  - by apply insert_desc_sorted.
Qed.

(** X5. The status chart of the overview has one slice per status that
    occurs in the frame; the value of a slice is the number of records with
    that status, which is positive; the values add up to the number of
    records; and the slices come by decreasing value. *)
Theorem status_chart_counts (s : Session) (df : nat) (f : DataFrame) :
  frames s !! df = Some f →
  ∃ slices : list (string * Z),
    In (["tab1"],
        plotly_chart (pie (StrCol (fst <$> slices)) (IntCol (snd <$> slices))
                        "Descripción general del estado del dispositivo"))
       (screen (exec (tab1 df) s))
    ∧ NoDup (fst <$> slices)
    ∧ (∀ x : string,
         x ∈ fst <$> slices ↔ ∃ d : Device, d ∈ rows f ∧ status d = x)
    ∧ (∀ (x : string) (n : Z),
         (x, n) ∈ slices →
         n = Z.of_nat (length (filter (λ d, status d = x) (rows f)))
         ∧ (0 < n)%Z)
    ∧ total (snd <$> slices) = len f
    ∧ Sorted by_count_desc slices.
Proof.
  intros H. exists (value_counts (status <$> rows f)).
  pose proof (value_counts_perm (status <$> rows f)) as Hperm.
  assert (Hcount : ∀ x, count_of x (status <$> rows f)
                        = Z.of_nat (length (filter (λ d, status d = x) (rows f)))).
  { intros x. by rewrite count_of_filter, length_filter_fmap. }
  split; [|split; [|split; [|split; [|split]]]].
  - unfold exec. rewrite (tab1_run _ _ _ H). cbn.
    apply in_or_app. right. unfold overview_screen. find_in.
  - rewrite Hperm, <- list_fmap_compose.
    rewrite (list_fmap_ext _ id (unique (status <$> rows f))) by done.
    rewrite list_fmap_id. apply NoDup_unique.
  - intros x. rewrite Hperm, <- list_fmap_compose.
    rewrite (list_fmap_ext _ id (unique (status <$> rows f))) by done.
    rewrite list_fmap_id, elem_of_unique, list_elem_of_fmap. split.
    + intros (d & -> & Hd). eauto.
    + intros (d & Hd & <-). eauto.
  - intros x n Hin. rewrite Hperm in Hin.
    apply list_elem_of_fmap in Hin as (y & [= -> ->] & Hy).
    split; [apply Hcount|]. rewrite Hcount.
    apply elem_of_unique, list_elem_of_fmap in Hy as (d & -> & Hd).
    assert (d ∈ filter (λ d0, status d0 = status d) (rows f))
      by (by apply list_elem_of_filter).
    destruct (filter _ (rows f)); [by apply elem_of_nil in H0 | cbn; lia].
  - rewrite (total_perm _ _ (fmap_Permutation snd _ _ Hperm)).
    rewrite <- list_fmap_compose.
    rewrite (list_fmap_ext _ (λ k, total ((λ _, 1%Z) <$> filter (λ a, a = k) (status <$> rows f)))
               (unique (status <$> rows f))).
    + rewrite (total_by_values (λ _, 1%Z)), total_ones, length_fmap. done.
    + intros i x Hx. cbn. rewrite total_ones. apply count_of_filter.
  - apply value_counts_sorted.
Qed.

Lemma status_chart_counts_witness :
  ∃ slices : list (string * Z),
    In (["tab1"],
        plotly_chart (pie (StrCol (fst <$> slices)) (IntCol (snd <$> slices))
                        "Descripción general del estado del dispositivo"))
       (screen (exec (tab1 0) built))
    ∧ total (snd <$> slices) = 4%Z.
Proof.
  destruct (status_chart_counts built 0 (pd_DataFrame devices) eq_refl)
    as (slices & Hin & _ & _ & _ & Htotal & _).
  exists slices. split; [exact Hin | exact Htotal].
Defined.

(** ** The lease summary, for any frame *)

Lemma insert_key_perm (k : string) (l : list string) : insert_key k l ≡ₚ k :: l.
Proof.
  induction l as [|k' l IH]; cbn; [done|].
  destruct (String.compare k k'); [done | done |].
  rewrite IH. apply Permutation_swap.
Qed.

Lemma sorted_keys_perm (l : Series string) : sorted_keys l ≡ₚ unique l.
Proof.
  unfold sorted_keys. induction (unique l) as [|k ks IH]; cbn; [done|].
  by rewrite insert_key_perm, IH.
Qed.

Lemma str_le_of_gt (a b : string) : String.compare a b = Gt → str_le b a.
Proof.
  unfold str_le. rewrite (String.compare_antisym a b).
  by destruct (String.compare b a).
Qed.

Lemma insert_key_sorted (k : string) (l : list string) :
  Sorted str_le l → Sorted str_le (insert_key k l).
Proof.
  induction 1 as [|k' l Hl IH Hk']; cbn.
  - repeat constructor.
  - destruct (String.compare k k') eqn:E.
    + constructor; [by constructor|]. constructor. unfold str_le. by rewrite E.
    + constructor; [by constructor|]. constructor. unfold str_le. by rewrite E.
    + constructor; [done|].
      destruct Hk' as [|k'' l Hk'']; cbn.
      * constructor. by apply str_le_of_gt.
      * destruct (String.compare k k''); constructor;
          first [done | by apply str_le_of_gt].
Qed.

Lemma sorted_keys_sorted (l : Series string) : Sorted str_lt (sorted_keys l).
Proof.
  assert (Hle : Sorted str_le (sorted_keys l)).
  { unfold sorted_keys. induction (unique l) as [|k ks IH]; cbn.
    - constructor.
    - by apply insert_key_sorted. }
  assert (Hnd : NoDup (sorted_keys l))
    by (rewrite sorted_keys_perm; apply NoDup_unique).
  induction Hle as [|k ks Hks IH Hk]; [constructor|].
  apply NoDup_cons in Hnd as [Hk_out Hnd].
  constructor; [by apply IH|].
  destruct Hk as [|k' ks' Hkk']; constructor.
  unfold str_lt, str_le in *.
  destruct (String.compare k k') eqn:E; [|done|done].
  apply String.compare_eq_iff in E as ->. destruct Hk_out. left.
Qed.

Lemma lease_summary_rows (f : DataFrame) :
  lease_summary f = summary_row f <$> sorted_keys (tipo <$> rows f).
Proof.
  unfold lease_summary. apply list_fmap_ext. intros i k _. unfold summary_row.
  rewrite (List_filter_stdpp _ (λ d, tipo d = k)); [done|].
  intros d. apply String.eqb_eq.
Qed.

Lemma lease_summary_keys (f : DataFrame) :
  by_tipo <$> lease_summary f = sorted_keys (tipo <$> rows f).
Proof.
  rewrite lease_summary_rows, <- list_fmap_compose.
  rewrite (list_fmap_ext _ id (sorted_keys (tipo <$> rows f))) by done.
  apply list_fmap_id.
Qed.

Lemma elem_of_sorted_keys (f : DataFrame) (x : string) :
  x ∈ sorted_keys (tipo <$> rows f) ↔ ∃ d : Device, d ∈ rows f ∧ tipo d = x.
Proof.
  rewrite sorted_keys_perm, elem_of_unique, list_elem_of_fmap. split.
  - intros (d & -> & Hd). eauto.
  - intros (d & Hd & <-). eauto.
Qed.

(** X6. For any frame the lease summary has one row per category that
    occurs, by ascending category; the device count of a row is the number
    of records of its category, which is positive, and the device counts add
    up to the number of records. *)
Theorem lease_summary_groups (f : DataFrame) :
  NoDup (by_tipo <$> lease_summary f)
  ∧ (∀ x : string,
       x ∈ by_tipo <$> lease_summary f ↔ ∃ d : Device, d ∈ rows f ∧ tipo d = x)
  ∧ Sorted str_lt (by_tipo <$> lease_summary f)
  ∧ (∀ r : SummaryRow,
       r ∈ lease_summary f →
       device_id_count r
       = Z.of_nat (length (filter (λ d, tipo d = by_tipo r) (rows f)))
       ∧ (0 < device_id_count r)%Z)
  ∧ total (device_id_count <$> lease_summary f) = len f.
Proof.
  rewrite lease_summary_keys. split; [|split; [|split; [|split]]].
  - rewrite sorted_keys_perm. apply NoDup_unique.
  - apply elem_of_sorted_keys.
  - apply sorted_keys_sorted.
  - intros r. rewrite lease_summary_rows.
    intros (k & -> & Hk)%list_elem_of_fmap. cbn. split; [done|].
    apply elem_of_sorted_keys in Hk as (d & Hd & <-).
    assert (Hin : d ∈ filter (λ d0, tipo d0 = tipo d) (rows f))
      by (by apply list_elem_of_filter).
    destruct (filter _ (rows f)); [by apply elem_of_nil in Hin | cbn; lia].
  - rewrite lease_summary_rows, <- list_fmap_compose.
    rewrite (total_perm _ _ (fmap_Permutation _ _ _ (sorted_keys_perm _))).
    rewrite (list_fmap_ext _
               (λ k, total ((λ _, 1%Z) <$> filter (λ d, tipo d = k) (rows f)))
               (unique (tipo <$> rows f)))
      by (intros i k _; cbn; by rewrite total_ones).
    by rewrite (total_by_unique tipo (λ _, 1%Z)), total_ones.
Qed.

Lemma fold_left_min (l : list Z) (t : Z) :
  fold_left Z.min l t ∈ t :: l ∧ ∀ x, x ∈ t :: l → (fold_left Z.min l t ≤ x)%Z.
Proof.
  revert t. induction l as [|y l IH]; intros t; cbn.
  - split; [left|]. intros x ->%list_elem_of_singleton. lia.
  - destruct (IH (Z.min t y)) as [Hin Hle]. split.
    + apply elem_of_cons in Hin as [->|Hin]; [|by do 2 right].
      destruct (Z.min_spec t y) as [[_ ->]|[_ ->]]; [left | right; left].
    + intros x Hx.
      assert (Hm : (fold_left Z.min l (Z.min t y) ≤ Z.min t y)%Z) by (apply Hle; left).
      apply elem_of_cons in Hx as [->|[->|Hx]%elem_of_cons]; [lia | lia |].
      apply Hle. by right.
Qed.

Lemma fold_left_max (l : list Z) (t : Z) :
  fold_left Z.max l t ∈ t :: l ∧ ∀ x, x ∈ t :: l → (x ≤ fold_left Z.max l t)%Z.
Proof.
  revert t. induction l as [|y l IH]; intros t; cbn.
  - split; [left|]. intros x ->%list_elem_of_singleton. lia.
  - destruct (IH (Z.max t y)) as [Hin Hle]. split.
    + apply elem_of_cons in Hin as [->|Hin]; [|by do 2 right].
      destruct (Z.max_spec t y) as [[_ ->]|[_ ->]]; [right; left | left].
    + intros x Hx.
      assert (Hm : (Z.max t y ≤ fold_left Z.max l (Z.max t y))%Z) by (apply Hle; left).
      apply elem_of_cons in Hx as [->|[->|Hx]%elem_of_cons]; [lia | lia |].
      apply Hle. by right.
Qed.

Lemma series_min_spec (l : Series Timestamp) :
  l ≠ [] → series_min l ∈ l ∧ ∀ x, x ∈ l → (series_min l ≤ x)%Z.
Proof. destruct l as [|t l]; [done|]. intros _. apply fold_left_min. Qed.

Lemma series_max_spec (l : Series Timestamp) :
  l ≠ [] → series_max l ∈ l ∧ ∀ x, x ∈ l → (x ≤ series_max l)%Z.
Proof. destruct l as [|t l]; [done|]. intros _. apply fold_left_max. Qed.

(** X7. In a row of the lease summary the earliest start is the start of
    some record of the row's category and no record of that category starts
    before it; the latest end is the end of some record of the category and
    no record of that category ends after it. *)
Theorem lease_summary_bounds (f : DataFrame) (r : SummaryRow) (d : Device) :
  r ∈ lease_summary f →
  d ∈ rows f →
  tipo d = by_tipo r →
  (inicio_arrendamiento_min r ≤ inicio_arrendamiento d)%Z
  ∧ (final_arrendamiento d ≤ final_arrendamiento_max r)%Z
  ∧ (∃ d0 : Device,
       d0 ∈ rows f ∧ tipo d0 = by_tipo r
       ∧ inicio_arrendamiento d0 = inicio_arrendamiento_min r)
  ∧ (∃ d1 : Device,
       d1 ∈ rows f ∧ tipo d1 = by_tipo r
       ∧ final_arrendamiento d1 = final_arrendamiento_max r).
Proof.
  rewrite lease_summary_rows. intros (k & -> & _)%list_elem_of_fmap Hd Hk.
  cbn in *. subst k.
  assert (Hin : d ∈ filter (λ d0, tipo d0 = tipo d) (rows f))
    by (by apply list_elem_of_filter).
  assert (Hne : ∀ g : Device → Z,
                  g <$> filter (λ d0, tipo d0 = tipo d) (rows f) ≠ []).
  { intros g E. apply fmap_nil_inv in E. rewrite E in Hin.
    by apply elem_of_nil in Hin. }
  destruct (series_min_spec _ (Hne inicio_arrendamiento)) as [Hmin_in Hmin].
  destruct (series_max_spec _ (Hne final_arrendamiento)) as [Hmax_in Hmax].
  split; [|split; [|split]].
  - apply Hmin, list_elem_of_fmap. eauto.
  - apply Hmax, list_elem_of_fmap. eauto.
  - apply list_elem_of_fmap in Hmin_in as (d0 & E & [H0 Hd0]%list_elem_of_filter).
    eauto.
  - apply list_elem_of_fmap in Hmax_in as (d1 & E & [H1 Hd1]%list_elem_of_filter).
    eauto.
Qed.

Lemma lease_summary_bounds_witness :
  (datetime 2024 1 15 ≤ datetime 2024 3 1)%Z
  ∧ (datetime 2024 12 31 ≤ datetime 2024 12 31)%Z.
Proof.
  destruct (lease_summary_bounds with_roi
              {| by_tipo := "Computadora";
                 device_id_count := 2;
                 ingreso_arrendamiento_sum := 3300;
                 inicio_arrendamiento_min := datetime 2024 1 15;
                 final_arrendamiento_max := datetime 2024 12 31 |}
              {| device_id := "C001"; tipo := "Computadora";
                 model := "Dell Latitude"; total_copies := 0;
                 costo_mantenimiento := 300; ingreso_arrendamiento := 1500;
                 inicio_arrendamiento := datetime 2024 3 1;
                 final_arrendamiento := datetime 2024 12 31;
                 status := "Activo"; cliente := "Compañía C" |})
    as (Hmin & Hmax & _).
  - vm_compute. left.
  - vm_compute. do 2 right. left.
  - reflexivity.
  - split; [exact Hmin | exact Hmax].
Defined.

Lemma wrap_add_wrap_r (a b : Z) :
  Int64.wrap (a + Int64.wrap b) = Int64.wrap (a + b).
Proof. by rewrite Z.add_comm, wrap_add_wrap, Z.add_comm. Qed.

Lemma wrap_total_wrap (l : list Z) :
  Int64.wrap (total (Int64.wrap <$> l)) = Int64.wrap (total l).
Proof.
  induction l as [|x l IH]; [done|].
  rewrite fmap_cons, !total_cons.
  rewrite wrap_add_wrap, <- wrap_add_wrap_r, IH, wrap_add_wrap_r. done.
Qed.

Lemma total_in_range (l : list Z) :
  Int64.in_range (total l) → series_sum l = total l.
Proof. intros H. rewrite series_sum_wrap. by apply wrap_in_range. Qed.

(** X8. The incomes of the rows of the lease summary account for the income
    total of the overview: reduced to [int64] their sum is the sum of the
    whole column, and when the income of every category and of the whole
    frame fits [int64], each row holds the exact income of its category and
    the rows add up exactly to the total that the overview prints. *)
Theorem lease_summary_income_adds_up (f : DataFrame) :
  Int64.wrap (total (ingreso_arrendamiento_sum <$> lease_summary f))
  = series_sum (ingreso_arrendamiento <$> rows f)
  ∧ ((∀ k : string,
        Int64.in_range
          (total (ingreso_arrendamiento <$> filter (λ d, tipo d = k) (rows f)))) →
     Int64.in_range (total (ingreso_arrendamiento <$> rows f)) →
     (∀ r : SummaryRow,
        r ∈ lease_summary f →
        ingreso_arrendamiento_sum r
        = total (ingreso_arrendamiento <$> filter (λ d, tipo d = by_tipo r) (rows f)))
     ∧ total (ingreso_arrendamiento_sum <$> lease_summary f)
       = total (ingreso_arrendamiento <$> rows f)
     ∧ total (ingreso_arrendamiento_sum <$> lease_summary f)
       = series_sum (ingreso_arrendamiento <$> rows f)).
Proof.
  assert (Hexact : total ((λ k, total (ingreso_arrendamiento
                                         <$> filter (λ d, tipo d = k) (rows f)))
                            <$> sorted_keys (tipo <$> rows f))
                   = total (ingreso_arrendamiento <$> rows f)).
  { rewrite (total_perm _ _ (fmap_Permutation _ _ _ (sorted_keys_perm _))).
    apply total_by_unique. }
  split.
  - rewrite lease_summary_rows, <- list_fmap_compose.
    rewrite (list_fmap_ext _
               (Int64.wrap ∘ (λ k, total (ingreso_arrendamiento
                                            <$> filter (λ d, tipo d = k) (rows f))))
               (sorted_keys (tipo <$> rows f)))
      by (intros i k _; cbn; apply series_sum_wrap).
    rewrite list_fmap_compose, wrap_total_wrap, Hexact.
    symmetry. apply series_sum_wrap.
  - intros Hgroups Hall.
    assert (Hrows : ∀ k, ingreso_arrendamiento_sum (summary_row f k)
                         = total (ingreso_arrendamiento
                                    <$> filter (λ d, tipo d = k) (rows f)))
      by (intros k; cbn; by apply total_in_range).
    assert (Hsum : total (ingreso_arrendamiento_sum <$> lease_summary f)
                   = total (ingreso_arrendamiento <$> rows f)).
    { rewrite lease_summary_rows, <- list_fmap_compose, <- Hexact.
      f_equal. apply list_fmap_ext. intros i k _. apply Hrows. }
    split; [|split; [done|]].
    + intros r. rewrite lease_summary_rows.
      intros (k & -> & _)%list_elem_of_fmap. apply Hrows.
    + rewrite Hsum. symmetry. by apply total_in_range.
Qed.

Lemma lease_summary_income_adds_up_witness :
  total (ingreso_arrendamiento_sum <$> lease_summary with_roi) = 7800%Z.
Proof.
  refine (proj1 (proj2 (proj2 (lease_summary_income_adds_up with_roi) _ _))).
  - intros k. cbn [rows with_roi setitem_roi pd_DataFrame].
    destruct (decide (k = "Impresora")) as [->|H1];
      [vm_compute; intuition discriminate|].
    destruct (decide (k = "Computadora")) as [->|H2];
      [vm_compute; intuition discriminate|].
    replace (filter _ devices) with (@nil Device);
      [vm_compute; intuition discriminate|].
    symmetry. apply filter_none_iff. intros d Hd E.
    repeat (apply elem_of_cons in Hd as [->|Hd]; [cbn in E; congruence|]).
    by apply elem_of_nil in Hd.
  - vm_compute. intuition discriminate.
Defined.

(** ** The sixty-day window *)

Lemma days_le_60_iff (now : Timestamp) (d : Device) :
  (days_to_expiration now d ≤ 60)%Z
  ↔ (final_arrendamiento d < now + 61 * Calendar.ns_per_day)%Z.
Proof.
  unfold days_to_expiration, Calendar.ns_per_day.
  set (delta := (final_arrendamiento d - now)%Z).
  replace (final_arrendamiento d) with (delta + now)%Z by (unfold delta; lia).
  pose proof (Z.div_mod delta (86400 * 10 ^ 9) ltac:(lia)) as Hdm.
  pose proof (Z.mod_pos_bound delta (86400 * 10 ^ 9) ltac:(lia)) as Hmod.
  split; intros H; lia.
Qed.

Lemma days_antitone (now now' : Timestamp) (d : Device) :
  (now ≤ now')%Z → (days_to_expiration now' d ≤ days_to_expiration now d)%Z.
Proof.
  intros H. unfold days_to_expiration.
  apply Z.div_le_mono; [unfold Calendar.ns_per_day; lia | lia].
Qed.

Lemma filter_sublist_impl {A} (P Q : A → Prop)
    `{!∀ x, Decision (P x)} `{!∀ x, Decision (Q x)} (l : list A) :
  (∀ x, P x → Q x) → filter P l `sublist_of` filter Q l.
Proof.
  intros HPQ. induction l as [|x l IH]; [done|].
  destruct (decide (P x)) as [HP|HP].
  - rewrite (filter_cons_True P), (filter_cons_True Q) by auto.
    by apply sublist_skip.
  - rewrite (filter_cons_False P) by done.
    destruct (decide (Q x)).
    + rewrite (filter_cons_True Q) by done. by apply sublist_cons.
    + by rewrite (filter_cons_False Q) by done.
Qed.

(** X9. For a frame of [datetime64[ns]] dates, a clock reading that is a
    timestamp of that unit and representable time differences, a lease is
    listed as expiring soon exactly when it ends less than 61 full days
    after the date of the render pass: the day count is rounded down, so a
    lease that ends 60 days and some hours from now is still listed, and
    every lease that has already ended is listed.  The tab draws the
    warning and the table of these leases, or, when there is none, only the
    message for no expiring lease. *)
Theorem expiring_window_is_61_days
    (now : Timestamp) (s : Session) (df : nat) (f : DataFrame) :
  frames s !! df = Some f →
  datetime64_columns f →
  valid_timestamp now →
  Forall (representable now) (rows f) →
  ∃ soon : list Device,
    soon = filter (λ d, (final_arrendamiento d < now + 61 * Calendar.ns_per_day)%Z)
             (rows f)
    ∧ screen (exec (tab4 now df) s)
      = screen s
        ++ leases_screen_raised
        ++ match soon with
           | [] => [ (["tab4"], info "No leases expiring in the next 60 days.") ]
           | _ =>
               [ (["tab4"],
                  warning
                    "Dispositivos con contratos de arrendamiento que vencen en los próximos 60 días:");
                 (["tab4"], dataframe (expiring_table now soon)) ]
           end
        ++ [ (["tab4"], subheader "Resumen del contrato de arrendamiento");
             (["tab4"], dataframe (summary_table (lease_summary f))) ]
    ∧ (∀ d : Device, d ∈ rows f → (final_arrendamiento d ≤ now)%Z → d ∈ soon)
    ∧ (∀ d : Device, d ∈ soon ↔ d ∈ rows f ∧ (days_to_expiration now d ≤ 60)%Z).
Proof.
  intros H _ Hclock Hrep. eexists. split; [reflexivity|].
  assert (E : filter (λ d, (days_to_expiration now d ≤ 60)%Z) (rows f)
              = filter (λ d, (final_arrendamiento d < now + 61 * Calendar.ns_per_day)%Z)
                  (rows f))
    by (apply list_filter_iff; intros d; apply days_le_60_iff).
  split; [|split].
  - unfold exec. rewrite (tab4_run _ _ _ _ H Hclock Hrep). cbn.
    unfold leases_screen. rewrite E. clear E.
    destruct (filter _ (rows f)); reflexivity.
  - intros d Hd Hended. apply list_elem_of_filter. split; [|done].
    unfold Calendar.ns_per_day. lia.
  - intros d. rewrite <- E, list_elem_of_filter. tauto.
Qed.

(** A lease that ends 60 days and 23 hours after the clock reading. *)
Lemma expiring_window_is_61_days_witness :
  ∃ soon : list Device,
    device_id <$> soon = ["P002"; "C002"]
    ∧ In (["tab4"],
          dataframe (expiring_table (datetime 2024 9 15 + 3600 * 10 ^ 9)%Z soon))
         (screen (exec (tab4 (datetime 2024 9 15 + 3600 * 10 ^ 9)%Z 0) prepared)).
Proof.
  destruct (expiring_window_is_61_days (datetime 2024 9 15 + 3600 * 10 ^ 9)%Z
              prepared 0 with_roi eq_refl)
    as (soon & Esoon & Hscreen & _).
  - repeat constructor; vm_compute; (reflexivity || discriminate).
  - vm_compute. split; [reflexivity | discriminate].
  - repeat (constructor; [by vm_compute|]). constructor.
  - exists soon.
    assert (Hids : device_id <$> soon = ["P002"; "C002"])
      by (rewrite Esoon; vm_compute; reflexivity).
    split; [exact Hids|]. rewrite Hscreen.
    apply in_or_app. right. apply in_or_app. right. apply in_or_app. left.
    destruct soon as [|d l]; [discriminate|]. right. left. reflexivity.
Defined.

(** X10. Time only adds to the list of leases that expire soon.  When the
    lease tab is run on the same frame at two clock readings, the second not
    before the first, both timestamps of the unit of the frame's dates and
    with representable time differences, both runs complete; every day
    count that the later run stores is at most the one the earlier run
    stores at that position; and the records that [expiring_soon] selects
    from the frame of the earlier run are all selected from the frame of
    the later one, in the same order. *)
Theorem expiring_soon_grows
    (now now' : Timestamp) (s : Session) (df : nat) (f : DataFrame) :
  frames s !! df = Some f →
  datetime64_columns f →
  valid_timestamp now →
  valid_timestamp now' →
  (now ≤ now')%Z →
  Forall (representable now) (rows f) →
  Forall (representable now') (rows f) →
  ∃ (f1 f2 soon soon' : DataFrame) (dias dias' : Series Z),
    eval (tab4 now df) s = inr tt
    ∧ eval (tab4 now' df) s = inr tt
    ∧ frames (exec (tab4 now df) s) !! df = Some f1
    ∧ frames (exec (tab4 now' df) s) !! df = Some f2
    ∧ dias_para_vencimiento f1 = Some dias
    ∧ dias_para_vencimiento f2 = Some dias'
    ∧ Forall2 (λ a b, (b ≤ a)%Z) dias dias'
    ∧ expiring_soon f1 = inr soon
    ∧ expiring_soon f2 = inr soon'
    ∧ rows soon = filter (λ d, (days_to_expiration now d ≤ 60)%Z) (rows f)
    ∧ rows soon' = filter (λ d, (days_to_expiration now' d ≤ 60)%Z) (rows f)
    ∧ rows soon `sublist_of` rows soon'
    ∧ (∀ d : Device, d ∈ rows soon → d ∈ rows soon')
    ∧ (length (rows soon) ≤ length (rows soon'))%nat.
Proof.
  intros H _ Hclock Hclock' Hle Hrep Hrep'.
  pose proof (lookup_lt_Some _ _ _ H) as Hlt.
  assert (Hsub : filter (λ d, (days_to_expiration now d ≤ 60)%Z) (rows f)
                 `sublist_of`
                 filter (λ d, (days_to_expiration now' d ≤ 60)%Z) (rows f)).
  { apply filter_sublist_impl. intros d Hd.
    pose proof (days_antitone now now' d Hle). lia. }
  eexists (setitem_dias f (days_to_expiration now <$> rows f)),
          (setitem_dias f (days_to_expiration now' <$> rows f)), _, _,
          (days_to_expiration now <$> rows f),
          (days_to_expiration now' <$> rows f).
  unfold eval, exec.
  rewrite (tab4_run _ _ _ _ H Hclock Hrep), (tab4_run _ _ _ _ H Hclock' Hrep').
  cbn [fst snd frames].
  split; [done|]. split; [done|].
  split; [by apply list_lookup_insert_eq|].
  split; [by apply list_lookup_insert_eq|].
  split; [done|]. split; [done|]. split.
  { apply Forall2_fmap, Forall_Forall2_diag, Forall_forall.
    intros d _. by apply days_antitone. }
  split; [apply expiring_soon_run|]. split; [apply expiring_soon_run|].
  cbn [rows]. split; [done|]. split; [done|]. split; [done|]. split.
  - intros d. by apply sublist_subseteq.
  - by apply sublist_length.
Qed.

(** From the first of September to the first of October the printer P002
    joins the computer C002 on the list. *)
Lemma expiring_soon_grows_witness :
  ∃ soon soon' : DataFrame,
    (∃ f1, frames (exec (tab4 (datetime 2024 9 1) 0) prepared) !! 0 = Some f1
           ∧ expiring_soon f1 = inr soon)
    ∧ (∃ f2, frames (exec (tab4 (datetime 2024 10 1) 0) prepared) !! 0 = Some f2
             ∧ expiring_soon f2 = inr soon')
    ∧ device_id <$> rows soon = ["C002"]
    ∧ device_id <$> rows soon' = ["P002"; "C002"]
    ∧ rows soon `sublist_of` rows soon'.
Proof.
  destruct (expiring_soon_grows (datetime 2024 9 1) (datetime 2024 10 1)
              prepared 0 with_roi eq_refl)
    as (f1 & f2 & soon & soon' & dias & dias' & _ & _ & Hf1 & Hf2 & _ & _ & _
        & Hsoon & Hsoon' & Hrows & Hrows' & Hsub & _).
  - repeat constructor; vm_compute; (reflexivity || discriminate).
  - vm_compute. split; [reflexivity | discriminate].
  - vm_compute. split; [reflexivity | discriminate].
  - vm_compute. discriminate.
  - repeat (constructor; [by vm_compute|]). constructor.
  - repeat (constructor; [by vm_compute|]). constructor.
  - exists soon, soon'.
    split; [exists f1; split; [exact Hf1 | exact Hsoon]|].
    split; [exists f2; split; [exact Hf2 | exact Hsoon']|].
    split; [rewrite Hrows; vm_compute; reflexivity|].
    split; [rewrite Hrows'; vm_compute; reflexivity|].
    exact Hsub.
Defined.

(** ** When the clock is out of reach *)

Lemma series_sub_timestamp_inv (now : Timestamp) (l : list Device)
    (delta : Series Z) :
  series_sub_timestamp (final_arrendamiento <$> l) now = inr delta →
  Forall (representable now) l.
Proof.
  revert delta. induction l as [|d l IH]; intros delta; [constructor|].
  cbn. unfold timedelta.
  destruct (Z.ltb_spec Int64.min_int (final_arrendamiento d - now));
    [|discriminate].
  destruct (Z.leb_spec (final_arrendamiento d - now) Int64.max_int);
    [|discriminate].
  cbn. destruct (series_sub_timestamp _ now) as [e|ds]; [discriminate|].
  intros _. constructor; [done | by eapply IH].
Qed.

Lemma series_sub_datetime_inv (now : Timestamp) (l : list Device)
    (delta : Series Z) :
  series_sub_datetime (final_arrendamiento <$> l) now = inr delta →
  valid_timestamp now ∧ Forall (representable now) l.
Proof.
  unfold series_sub_datetime.
  destruct (decide (valid_timestamp now)) as [Hclock|Hclock].
  - rewrite (pd_Timestamp_ok _ Hclock). intros E.
    split; [done|]. by eapply series_sub_timestamp_inv.
  - by rewrite (pd_Timestamp_raises _ Hclock).
Qed.


Lemma tab4_raise (now : Timestamp) (s : Session) (df : nat) (f : DataFrame)
    (e : exn) :
  frames s !! df = Some f →
  series_sub_datetime (final_arrendamiento <$> rows f) now = inl e →
  tab4 now df s
  = (inl e, {| frames := frames s; screen := screen s ++ leases_screen_raised |}).
Proof.
  intros H E. unfold tab4. run. rewrite H. cbn. rewrite E. reflexivity.
Qed.



(** ** A whole render pass *)

Lemma main_completes_run (ws : Widgets) (now : Timestamp) (s : Session) :
  valid_timestamp now →
  Forall (representable now) devices →
  main ws now s
  = (inr tt,
     {| frames :=
          frames s
          ++ [setitem_dias with_roi (days_to_expiration now <$> devices)];
        screen := screen s ++ pass_screen ws ++ leases_screen now with_roi |}).
Proof.
  intros Hclock Hrep. rewrite main_run.
  rewrite (tab4_run now
             {| frames := frames s ++ [with_roi];
                screen := screen s ++ pass_screen ws |}
             (length (frames s)) with_roi (lookup_end _ _) Hclock Hrep).
  cbn [frames screen]. rewrite insert_end, <- app_assoc. reflexivity.
Qed.

Lemma main_raise_run (ws : Widgets) (now : Timestamp) (s : Session) (e : exn) :
  series_sub_datetime (final_arrendamiento <$> devices) now = inl e →
  main ws now s
  = (inl e,
     {| frames := frames s ++ [with_roi];
        screen := screen s ++ pass_screen ws ++ leases_screen_raised |}).
Proof.
  intros E. rewrite main_run.
  rewrite (tab4_raise now
             {| frames := frames s ++ [with_roi];
                screen := screen s ++ pass_screen ws |}
             (length (frames s)) with_roi e (lookup_end _ _) E).
  cbn [frames screen]. by rewrite <- app_assoc.
Qed.

Lemma sample_lease_ends :
  forallb (λ d, (0 <=? final_arrendamiento d)%Z
                && (final_arrendamiento d <=? 2 * 10 ^ 18)%Z) devices
  = true.
Proof. vm_compute. reflexivity. Qed.

Lemma sample_representable (now : Timestamp) :
  (0 ≤ now ≤ Int64.max_int)%Z → Forall (representable now) devices.
Proof.
  intros Hnow. apply Forall_forall. intros d Hd.
  pose proof sample_lease_ends as Hends.
  rewrite forallb_forall in Hends.
  apply list_elem_of_In, Hends, andb_prop in Hd as [Hlo Hhi].
  apply Z.leb_le in Hlo, Hhi.
  unfold representable, Int64.min_int, Int64.max_int in *. lia.
Qed.




(** X12. For every state of the widgets and every clock reading from 1970
    to the last timestamp that [int64] nanoseconds can hold, a render pass
    completes without an exception: it adds one frame to the store, with
    the records as built, their ROI and their day counts, and it draws the
    page head and the four tabs in full. *)
Theorem render_pass_completes (ws : Widgets) (now : Timestamp) (s : Session) :
  (0 ≤ now ≤ Int64.max_int)%Z →
  main ws now s
  = (inr tt,
     {| frames :=
          frames s
          ++ [ {| rows := devices;
                  roi := Some (roi_of <$> devices);
                  dias_para_vencimiento :=
                    Some (days_to_expiration now <$> devices) |} ];
        screen := screen s ++ pass_screen ws ++ leases_screen now with_roi |}).
Proof.
  intros Hnow. apply main_completes_run; [|by apply sample_representable].
  unfold valid_timestamp, Int64.min_int. lia.
Qed.

Lemma render_pass_completes_witness :
  eval (main {| chosen_tipos := None; chosen_device := None;
                chosen_status := None; clicked := false |}
          (datetime 2024 10 1)) fresh_session
  = inr tt.
Proof.
  unfold eval.
  rewrite (render_pass_completes
             {| chosen_tipos := None; chosen_device := None;
                chosen_status := None; clicked := false |}
             (datetime 2024 10 1) fresh_session);
    [reflexivity | by vm_compute].
Defined.


Lemma no_success_in_leases (now : Timestamp) (f : DataFrame) :
  Forall (λ p, is_success p = false) (leases_screen now f).
Proof.
  unfold leases_screen. rewrite !Forall_app. split; [|split].
  - repeat constructor.
  - destruct (filter _ (rows f)); repeat constructor.
  - repeat constructor.
Qed.

(** X14. Without a click on the button a render pass draws no confirmation,
    whatever is selected in the two select boxes and whatever the clock. *)
Theorem no_click_no_confirmation (ws : Widgets) (now : Timestamp) (s : Session) :
  clicked ws = false →
  ∃ out : list Placed,
    screen (exec (main ws now) s) = screen s ++ out
    ∧ Forall (λ p, is_success p = false) out
    ∧ ∀ body : string, ¬ In (["tab3"], success body) out.
Proof.
  intros Hclick.
  assert (Hpass : Forall (λ p, is_success p = false) (pass_screen ws)).
  { unfold pass_screen, inventory_screen. rewrite Hclick.
    rewrite !Forall_app. repeat split; repeat constructor. }
  assert (Hout : ∃ out, screen (exec (main ws now) s) = screen s ++ out
                        ∧ Forall (λ p, is_success p = false) out).
  { destruct (series_sub_datetime (final_arrendamiento <$> devices) now)
      as [e|delta] eqn:E.
    - exists (pass_screen ws ++ leases_screen_raised).
      unfold exec. rewrite (main_raise_run _ _ _ _ E).
      split; [reflexivity|]. apply Forall_app. split; [done|].
      repeat constructor.
    - apply series_sub_datetime_inv in E as [Hclock Hrep].
      exists (pass_screen ws ++ leases_screen now with_roi).
      unfold exec. rewrite (main_completes_run _ _ _ Hclock Hrep).
      split; [reflexivity|]. apply Forall_app. split; [done|].
      apply no_success_in_leases. }
  destruct Hout as (out & Hscreen & Hno). exists out.
  split; [done|]. split; [done|].
  intros body Hin. rewrite Forall_forall in Hno.
  apply list_elem_of_In in Hin. by specialize (Hno _ Hin).
Qed.

Lemma no_click_no_confirmation_witness :
  ∃ out : list Placed,
    screen (exec (main {| chosen_tipos := None; chosen_device := Some "C002";
                          chosen_status := Some "Inactivo"; clicked := false |}
                    (datetime 2024 10 1)) fresh_session)
    = out
    ∧ Forall (λ p, is_success p = false) out.
Proof.
  destruct (no_click_no_confirmation
              {| chosen_tipos := None; chosen_device := Some "C002";
                 chosen_status := Some "Inactivo"; clicked := false |}
              (datetime 2024 10 1) fresh_session eq_refl)
    as (out & Hscreen & Hno & _).
  exists out. split; [exact Hscreen | exact Hno].
Defined.
(** ** The other overview metrics *)

(** X15. For any frame the overview shows the number of its records as the
    device count, and, when the sum of the maintenance costs fits [int64],
    that exact sum as the cost total; partial sums that leave [int64] on
    the way do no harm.  In a render pass the two metrics show 4 and
    [$2,000.00], whatever the widgets and the clock. *)
Theorem overview_count_and_cost (s : Session) (df : nat) (f : DataFrame) :
  frames s !! df = Some f →
  Int64.in_range (total (costo_mantenimiento <$> rows f)) →
  In (["tab1"; "col1"],
      metric "Total de dispositivos" (PyInt (Z.of_nat (length (rows f)))))
     (screen (exec (tab1 df) s))
  ∧ In (["tab1"; "col3"],
        metric "Costo de mantenimiento total"
          (PyStr ("$" ++ format_comma_2f (total (costo_mantenimiento <$> rows f)))))
       (screen (exec (tab1 df) s))
  ∧ (∀ (ws : Widgets) (now : Timestamp) (s0 : Session),
       In (["tab1"; "col1"], metric "Total de dispositivos" (PyInt 4))
          (screen (exec (main ws now) s0))
       ∧ In (["tab1"; "col3"],
             metric "Costo de mantenimiento total" (PyStr "$2,000.00"))
            (screen (exec (main ws now) s0))).
Proof.
  intros H Hsum. split; [|split].
  - unfold exec. rewrite (tab1_run _ _ _ H). cbn.
    apply in_or_app. right. unfold overview_screen, len. find_in.
  - unfold exec. rewrite (tab1_run _ _ _ H). cbn.
    apply in_or_app. right. unfold overview_screen.
    rewrite (total_in_range (costo_mantenimiento <$> rows f) Hsum). find_in.
  - intros ws now s0. split; apply in_pass_screen; unfold pass_screen;
      (apply in_or_app; right; apply in_or_app; left; find_in).
Qed.

Lemma overview_count_and_cost_witness :
  In (["tab1"; "col3"],
      metric "Costo de mantenimiento total" (PyStr "$2,000.00"))
     (screen (exec (tab1 0) built)).
Proof.
  refine (proj1 (proj2 (overview_count_and_cost built 0 (pd_DataFrame devices)
                          eq_refl _))).
  vm_compute. intuition discriminate.
Defined.
(** ** Printing amounts *)

Lemma digits2_pos_size (m : positive) : digits2_pos m = Pos.size m.
Proof. induction m as [m IH|m IH|]; cbn; by rewrite ?IH. Qed.

Lemma digits2_pos_bound (m : positive) :
  (Z.pos m < 2 ^ 53)%Z → (Z.pos (digits2_pos m) ≤ 53)%Z.
Proof.
  intros Hm. rewrite digits2_pos_size.
  pose proof (Pos.size_le m) as Hle.
  apply Pos2Z.pos_le_pos in Hle. rewrite Pos2Z.inj_pow in Hle.
  change (Z.pos m~0) with (2 * Z.pos m)%Z in Hle.
  destruct (Z.le_gt_cases (Z.pos (Pos.size m)) 53) as [|Hgt]; [done|].
  assert (2 ^ 54 ≤ 2 ^ Z.pos (Pos.size m))%Z
    by (apply Z.pow_le_mono_r; lia).
  lia.
Qed.

Lemma iter_xO_pos (m k : positive) :
  Z.pos (Pos.iter xO m k) = (Z.pos m * 2 ^ Z.pos k)%Z.
Proof.
  rewrite (Pos.iter_swap_gen _ _ Z.pos xO (Z.mul 2)) by done.
  rewrite <- Z.shiftl_mul_pow2 by lia. reflexivity.
Qed.

Lemma iter_xO_digits (m k : positive) :
  digits2_pos (Pos.iter xO m k) = (digits2_pos m + k)%positive.
Proof.
  rewrite (Pos.iter_swap_gen _ _ digits2_pos xO Pos.succ) by done.
  induction k as [|k IH] using Pos.peano_ind.
  - cbn. lia.
  - rewrite Pos.iter_succ, IH. lia.
Qed.

(** A mantissa of 53 bits and an exponent in range is not rounded. *)
Lemma binary_round_aux_exact (sx : bool) (mz : positive) (ez : Z) :
  digits2_pos mz = 53%positive →
  (-1074 ≤ ez ≤ 971)%Z →
  binary_round_aux 53 1024 sx (Z.pos mz) ez loc_Exact = S754_finite sx mz ez.
Proof.
  intros Hd He.
  assert (Hshr : shr_fexp 53 1024 (Z.pos mz) ez loc_Exact
                 = ({| shr_m := Z.pos mz; shr_r := false; shr_s := false |}, ez)).
  { unfold shr_fexp, fexp, emin. cbn [Zdigits2 shr_record_of_loc]. rewrite Hd.
    replace (Z.max (53 + ez - 53) (3 - 1024 - 53) - ez)%Z with 0%Z by lia.
    reflexivity. }
  unfold binary_round_aux. rewrite Hshr. cbn [shr_m loc_of_shr_record round_nearest_even].
  rewrite Hshr. cbn [shr_m].
  destruct (Z.leb_spec ez (1024 - 53)); [done | lia].
Qed.

Lemma binary_round_exact (sx : bool) (m : positive) :
  (Z.pos m < 2 ^ 53)%Z →
  ∃ (mz : positive) (ez : Z),
    binary_round 53 1024 sx m 0 = S754_finite sx mz ez
    ∧ (ez ≤ 0)%Z
    ∧ (Z.pos mz = Z.pos m * 2 ^ (- ez))%Z.
Proof.
  intros Hm. pose proof (digits2_pos_bound m Hm) as Hd.
  unfold binary_round, fexp, emin.
  replace (Z.max (Z.pos (digits2_pos m) + 0 - 53) (3 - 1024 - 53))
    with (Z.pos (digits2_pos m) - 53)%Z by lia.
  unfold shl_align. rewrite Z.sub_0_r.
  destruct (Z.pos (digits2_pos m) - 53)%Z as [|p|p] eqn:E; [|lia|].
  - exists m, 0%Z. split; [|split; [done | cbn; lia]].
    apply binary_round_aux_exact; [|lia]. lia.
  - exists (Pos.iter xO m p), (Z.neg p). split; [|split; [lia|]].
    + apply binary_round_aux_exact; [|lia].
      rewrite iter_xO_digits. lia.
    + rewrite iter_xO_pos. reflexivity.
Qed.

(** Integers below 2^53 in magnitude are [float64] values. *)
Lemma float_value_exact (x : Z) :
  (Z.abs x < 2 ^ 53)%Z → Int64.float_value x = x.
Proof.
  intros Hx. unfold Int64.float_value, binary_normalize.
  destruct x as [|m|m]; [done| |].
  - destruct (binary_round_exact false m) as (mz & ez & -> & Hez & Hmz); [lia|].
    rewrite Z.shiftl_div_pow2 by done. rewrite Hmz.
    apply Z.div_mul. apply Z.pow_nonzero; lia.
  - destruct (binary_round_exact true m) as (mz & ez & -> & Hez & Hmz); [lia|].
    rewrite Z.shiftl_div_pow2 by done. rewrite Hmz.
    rewrite Z.div_mul by (apply Z.pow_nonzero; lia). reflexivity.
Qed.
Lemma list_ascii_of_string_app (s1 s2 : string) :
  list_ascii_of_string (s1 ++ s2)
  = list_ascii_of_string s1 ++ list_ascii_of_string s2.
Proof. induction s1 as [|c s1 IH]; simpl; [done | by f_equal]. Qed.

Lemma digits_not_commas (d : Decimal.uint) :
  Forall (λ c, Ascii.eqb c ","%char = false)
    (list_ascii_of_string (NilEmpty.string_of_uint d)).
Proof. induction d; cbn; constructor; done. Qed.

Lemma decimal_digits_not_commas (n : N) :
  Forall (λ c, Ascii.eqb c ","%char = false) (decimal_digits n).
Proof.
  unfold decimal_digits, NilZero.string_of_uint.
  destruct (N.to_uint n) eqn:E; try (rewrite <- E; apply digits_not_commas).
  repeat constructor.
Qed.

Lemma filter_keep_all {A} (p : A → bool) (l : list A) :
  Forall (λ c, p c = true) l → List.filter p l = l.
Proof. induction 1 as [|c l Hc _ IH]; cbn; [done|]. by rewrite Hc, IH. Qed.

Lemma filter_drop_all {A} (p : A → bool) (l : list A) :
  Forall (λ c, p c = false) l → List.filter p l = [].
Proof. induction 1 as [|c l Hc _ IH]; cbn; [done|]. by rewrite Hc, IH. Qed.

Lemma group3_step (a b c d : ascii) (rest : list ascii) :
  group3 (a :: b :: c :: d :: rest)
  = a :: b :: c :: ","%char :: group3 (d :: rest).
Proof. reflexivity. Qed.

(** Grouping only inserts separators, one after every third digit that has
    a digit after it. *)
Lemma group3_spec (n : nat) (ds : list ascii) :
  (length ds ≤ n)%nat →
  Forall (λ c, Ascii.eqb c ","%char = false) ds →
  List.filter (λ c, negb (Ascii.eqb c ","%char)) (group3 ds) = ds
  ∧ length (List.filter (λ c, Ascii.eqb c ","%char) (group3 ds))
    = ((length ds - 1) / 3)%nat.
Proof.
  revert ds. induction n as [|n IH]; intros ds Hn Hds.
  - destruct ds; [done | cbn in Hn; lia].
  - destruct Hds as [|a ? Ha [|b ? Hb [|c ? Hc [|d rest Hd Hrest]]]].
    + done.
    + cbn. by rewrite Ha.
    + cbn. by rewrite Ha, Hb.
    + cbn. by rewrite Ha, Hb, Hc.
    + destruct (IH (d :: rest)) as [IH1 IH2];
        [cbn in *; lia | by constructor |].
      rewrite group3_step. cbn [List.filter]. rewrite Ha, Hb, Hc. cbn [negb].
      change (Ascii.eqb ","%char ","%char) with true. cbn [negb]. split.
      * do 3 f_equal. exact IH1.
      * cbn [length]. rewrite IH2. cbn [length].
        replace (S (S (S (S (length rest)))) - 1) with (length rest + 1 * 3) by lia.
        rewrite Nat.div_add by lia.
        replace (S (length rest) - 1) with (length rest) by lia. lia.
Qed.

(** X16. An amount below 2^53 in magnitude is printed digit for digit by
    the [,.2f] format of the two money metrics: without the thousands
    separators the text is the decimal numeral of the amount followed by
    [.00], and it has one separator for every three digits before the
    last three. *)
Theorem amounts_print_exactly (x : Z) :
  (Z.abs x < 2 ^ 53)%Z →
  strip_commas (format_comma_2f x) = (numeral x ++ ".00")%string
  ∧ comma_count (format_comma_2f x)
    = ((String.length (numeral (Z.abs x)) - 1) / 3)%nat.
Proof.
  intros Hx. unfold strip_commas, comma_count, format_comma_2f, numeral.
  rewrite (float_value_exact x Hx).
  replace (Z.abs x <? 0)%Z with false by (symmetry; apply Z.ltb_ge; lia).
  replace (Z.abs_N (Z.abs x)) with (Z.abs_N x) by lia.
  cbn [String.append].
  fold (decimal_digits (Z.abs_N x)).
  pose proof (decimal_digits_not_commas (Z.abs_N x)) as Hds.
  assert (Hrev : Forall (λ c, Ascii.eqb c ","%char = false)
                   (rev (decimal_digits (Z.abs_N x))))
    by (by apply Forall_rev).
  destruct (group3_spec _ _ (le_n _) Hrev) as [Hstrip Hcount].
  rewrite !list_ascii_of_string_app, list_ascii_of_string_of_list_ascii.
  rewrite !List.filter_app, !filter_rev, Hstrip, rev_involutive.
  split.
  - match goal with
    | |- _ = ?r => rewrite <- (string_of_list_ascii_of_string r)
    end.
    f_equal. rewrite !list_ascii_of_string_app. unfold decimal_digits.
    destruct (x <? 0)%Z; cbn; by rewrite <- ?app_assoc.
  - rewrite !length_app, length_rev, Hcount, length_rev.
    replace (length (List.filter _ (list_ascii_of_string (if (x <? 0)%Z then "-" else ""))))
      with 0 by (by destruct (x <? 0)%Z).
    change (List.filter (λ c, Ascii.eqb c ","%char) (list_ascii_of_string ".00"))
      with (@nil ascii).
    cbn [length].
    unfold decimal_digits.
    replace (length (list_ascii_of_string _))
      with (String.length (NilZero.string_of_uint (N.to_uint (Z.abs_N x)))).
    + change ("" ++ NilZero.string_of_uint (N.to_uint (Z.abs_N x)))%string
        with (NilZero.string_of_uint (N.to_uint (Z.abs_N x))).
      lia.
    + generalize (NilZero.string_of_uint (N.to_uint (Z.abs_N x))).
      intros s. induction s as [|c s IH]; cbn; [done | by rewrite IH].
Qed.

Lemma amounts_print_exactly_witness :
  format_comma_2f 1234567 = "1,234,567.00"
  ∧ strip_commas (format_comma_2f 1234567) = "1234567.00"
  ∧ comma_count (format_comma_2f 1234567) = 2%nat.
Proof.
  destruct (amounts_print_exactly 1234567) as [Hstrip Hcount]; [by vm_compute|].
  split; [reflexivity|]. split; [exact Hstrip | exact Hcount].
Defined.
